(** * jsch/consumers.go: the consumer descriptor, its options, and the
      builder / loader / handle built around it.

    The Go package keeps a consumer configuration ([server.ObservableConfig])
    that is edited by first-class option closures, submitted to a JetStream
    server over a NATS connection, and wrapped in a [Consumer] handle.

    Conventions of the embedding:
    - Go [string] and [[]byte] are byte sequences: Rocq [string].
    - Go [int], [uint64] and [time.Duration] are [Z]; the only arithmetic the
      file performs on them ([-1 * d]) has its 64-bit wrap-around written out.
    - a Go result [(v, err)] is a pair whose second component is
      [option error] ([None] is the nil error); a pointer result that may be
      nil is an [option].
    - the package-level connection [nc] is threaded explicitly as a [World]:
      the state of the connection together with the log of the calls that
      were made on it. *)

From Stdlib Require Import ZArith List String Ascii Bool Lia DecimalString.
Import ListNotations.

Open Scope string_scope.
Open Scope Z_scope.

(** ** Go primitives *)

(** Go error values.  [Errorf] is an error built by [fmt.Errorf] in this
    package (its text is the formatted message); [Foreign] is an error value
    handed back by a collaborator (the connection, the JSON codec). *)
Inductive error : Type :=
| Errorf (msg : string)
| Foreign (origin : string) (msg : string).

(** [time.Duration] is an int64 count of nanoseconds. *)
Definition Duration := Z.

Definition Second : Duration := 1000000000.

(** Two's-complement wrap-around of int64 arithmetic. *)
Definition wrap64 (z : Z) : Z := (z + 2 ^ 63) mod 2 ^ 64 - 2 ^ 63.

(** [strconv.Itoa] and the [%d] verb: decimal rendering of an integer. *)
Definition Itoa (n : Z) : string := NilZero.string_of_int (Z.to_int n).

(** [strings.HasPrefix s p]. *)
Definition HasPrefix (s p : string) : bool := prefix p s.

(** The part of package [time] the file uses: the type [time.Time], its zero
    value and [Time.Add]. *)
Class GoTime : Type := {
  Time : Type;
  zeroTime : Time;
  time_Add : Time -> Duration -> Time
}.

(** ** server.ObservableConfig and friends *)

(** [server.AckPolicy] and [server.ReplayPolicy], in declaration order (the
    first constructor is the zero value). *)
Inductive AckPolicy : Type := AckNone | AckAll | AckExplicit.
Inductive ReplayPolicy : Type := ReplayInstant | ReplayOriginal.

Section DataModel.
Context {GT : GoTime}.

(** The fields of [server.ObservableConfig] that consumers.go reads or
    writes. *)
Record ObservableConfig : Type := mkObservableConfig {
  Delivery : string;
  Durable : string;
  MsgSetSeq : Z;
  StartTime : Time;
  DeliverAll : bool;
  DeliverLast : bool;
  AckPolicy_ : AckPolicy;
  AckWait_ : Duration;
  MaxDeliver : Z;
  FilterSubject : string;
  ReplayPolicy_ : ReplayPolicy;
  SampleFrequency : string
}.

(** The zero value of the struct. *)
Definition zeroConfig : ObservableConfig :=
  {| Delivery := ""; Durable := ""; MsgSetSeq := 0; StartTime := zeroTime;
     DeliverAll := false; DeliverLast := false; AckPolicy_ := AckNone;
     AckWait_ := 0; MaxDeliver := 0; FilterSubject := "";
     ReplayPolicy_ := ReplayInstant; SampleFrequency := "" |}.

(** Field assignments [o.F = v]. *)
Definition set_Delivery (v : string) (o : ObservableConfig) :=
  mkObservableConfig v (Durable o) (MsgSetSeq o) (StartTime o) (DeliverAll o)
    (DeliverLast o) (AckPolicy_ o) (AckWait_ o) (MaxDeliver o)
    (FilterSubject o) (ReplayPolicy_ o) (SampleFrequency o).
Definition set_Durable (v : string) (o : ObservableConfig) :=
  mkObservableConfig (Delivery o) v (MsgSetSeq o) (StartTime o) (DeliverAll o)
    (DeliverLast o) (AckPolicy_ o) (AckWait_ o) (MaxDeliver o)
    (FilterSubject o) (ReplayPolicy_ o) (SampleFrequency o).
Definition set_MsgSetSeq (v : Z) (o : ObservableConfig) :=
  mkObservableConfig (Delivery o) (Durable o) v (StartTime o) (DeliverAll o)
    (DeliverLast o) (AckPolicy_ o) (AckWait_ o) (MaxDeliver o)
    (FilterSubject o) (ReplayPolicy_ o) (SampleFrequency o).
Definition set_StartTime (v : Time) (o : ObservableConfig) :=
  mkObservableConfig (Delivery o) (Durable o) (MsgSetSeq o) v (DeliverAll o)
    (DeliverLast o) (AckPolicy_ o) (AckWait_ o) (MaxDeliver o)
    (FilterSubject o) (ReplayPolicy_ o) (SampleFrequency o).
Definition set_DeliverAll (v : bool) (o : ObservableConfig) :=
  mkObservableConfig (Delivery o) (Durable o) (MsgSetSeq o) (StartTime o) v
    (DeliverLast o) (AckPolicy_ o) (AckWait_ o) (MaxDeliver o)
    (FilterSubject o) (ReplayPolicy_ o) (SampleFrequency o).
Definition set_DeliverLast (v : bool) (o : ObservableConfig) :=
  mkObservableConfig (Delivery o) (Durable o) (MsgSetSeq o) (StartTime o)
    (DeliverAll o) v (AckPolicy_ o) (AckWait_ o) (MaxDeliver o)
    (FilterSubject o) (ReplayPolicy_ o) (SampleFrequency o).
Definition set_AckPolicy (v : AckPolicy) (o : ObservableConfig) :=
  mkObservableConfig (Delivery o) (Durable o) (MsgSetSeq o) (StartTime o)
    (DeliverAll o) (DeliverLast o) v (AckWait_ o) (MaxDeliver o)
    (FilterSubject o) (ReplayPolicy_ o) (SampleFrequency o).
Definition set_AckWait (v : Duration) (o : ObservableConfig) :=
  mkObservableConfig (Delivery o) (Durable o) (MsgSetSeq o) (StartTime o)
    (DeliverAll o) (DeliverLast o) (AckPolicy_ o) v (MaxDeliver o)
    (FilterSubject o) (ReplayPolicy_ o) (SampleFrequency o).
Definition set_MaxDeliver (v : Z) (o : ObservableConfig) :=
  mkObservableConfig (Delivery o) (Durable o) (MsgSetSeq o) (StartTime o)
    (DeliverAll o) (DeliverLast o) (AckPolicy_ o) (AckWait_ o) v
    (FilterSubject o) (ReplayPolicy_ o) (SampleFrequency o).
Definition set_FilterSubject (v : string) (o : ObservableConfig) :=
  mkObservableConfig (Delivery o) (Durable o) (MsgSetSeq o) (StartTime o)
    (DeliverAll o) (DeliverLast o) (AckPolicy_ o) (AckWait_ o) (MaxDeliver o)
    v (ReplayPolicy_ o) (SampleFrequency o).
Definition set_ReplayPolicy (v : ReplayPolicy) (o : ObservableConfig) :=
  mkObservableConfig (Delivery o) (Durable o) (MsgSetSeq o) (StartTime o)
    (DeliverAll o) (DeliverLast o) (AckPolicy_ o) (AckWait_ o) (MaxDeliver o)
    (FilterSubject o) v (SampleFrequency o).
Definition set_SampleFrequency (v : string) (o : ObservableConfig) :=
  mkObservableConfig (Delivery o) (Durable o) (MsgSetSeq o) (StartTime o)
    (DeliverAll o) (DeliverLast o) (AckPolicy_ o) (AckWait_ o) (MaxDeliver o)
    (FilterSubject o) (ReplayPolicy_ o) v.

(** [DefaultConsumer] and [SampledDefaultConsumer]: struct literals, the
    fields not listed keep their zero value. *)
Definition DefaultConsumer : ObservableConfig :=
  set_ReplayPolicy ReplayInstant
    (set_AckWait (30 * Second)
      (set_AckPolicy AckExplicit
        (set_DeliverAll true zeroConfig))).

Definition SampledDefaultConsumer : ObservableConfig :=
  set_SampleFrequency "100%"
    (set_ReplayPolicy ReplayInstant
      (set_AckWait (30 * Second)
        (set_AckPolicy AckExplicit
          (set_DeliverAll true zeroConfig)))).

(** ** Options

    [type ConsumerOption func(o *server.ObservableConfig) error].  The
    closure edits the struct behind the pointer and returns an error: here it
    maps the configuration to the edited configuration and the error.  Its
    first argument is the instant at which the closure runs, that is the
    value a call of [time.Now()] made by the closure returns. *)
Definition ConsumerOption : Type :=
  Time -> ObservableConfig -> ObservableConfig * option error.

Definition DeliverySubject (s : string) : ConsumerOption :=
  fun _ o => (set_Delivery s o, None).

Definition DurableName (s : string) : ConsumerOption :=
  fun _ o => (set_Durable s o, None).

Definition StartAtSequence (s : Z) : ConsumerOption :=
  fun _ o => (set_MsgSetSeq s o, None).

Definition StartAtTime (t : Time) : ConsumerOption :=
  fun _ o => (set_StartTime t o, None).

Definition DeliverAllAvailable : ConsumerOption :=
  fun _ o => (set_DeliverAll true o, None).

Definition StartWithLastReceived : ConsumerOption :=
  fun _ o => (set_DeliverLast true o, None).

Definition StartAtTimeDelta (d : Duration) : ConsumerOption :=
  fun now o => (set_StartTime (time_Add now (wrap64 (-1 * d))) o, None).

Definition AcknowledgeNone : ConsumerOption :=
  fun _ o => (set_AckPolicy AckNone o, None).

Definition AcknowledgeAll : ConsumerOption :=
  fun _ o => (set_AckPolicy AckAll o, None).

Definition AcknowledgeExplicit : ConsumerOption :=
  fun _ o => (set_AckPolicy AckExplicit o, None).

Definition AckWait (t : Duration) : ConsumerOption :=
  fun _ o => (set_AckWait t o, None).

Definition MaxDeliveryAttempts (n : Z) : ConsumerOption :=
  fun _ o =>
    if n =? 0 then
      (o, Some (Errorf "configuration would prevent all deliveries"))
    else (set_MaxDeliver n o, None).

Definition FilterStreamBySubject (s : string) : ConsumerOption :=
  fun _ o => (set_FilterSubject s o, None).

Definition ReplayInstantly : ConsumerOption :=
  fun _ o => (set_ReplayPolicy ReplayInstant o, None).

Definition ReplayAsReceived : ConsumerOption :=
  fun _ o => (set_ReplayPolicy ReplayOriginal o, None).

Definition SamplePercent (i : Z) : ConsumerOption :=
  fun _ o =>
    if (i <? 0) || (i >? 100) then
      (o, Some (Errorf "sample percent must be 0-100"))
    else if i =? 0 then (set_SampleFrequency "" o, None)
    else (set_SampleFrequency (Itoa i ++ "%") o, None).

(** [NewConsumerConfiguration]: the loop over [opts].  [template] is a copy
    (Go passes the struct by value); every closure edits that copy, and the
    first error stops the loop and is returned next to the copy as it then
    is.  [clock k] is the instant at which the [k]-th option runs. *)
Fixpoint NewConsumerConfiguration (clock : nat -> Time)
  (template : ObservableConfig) (opts : list ConsumerOption)
  : ObservableConfig * option error :=
  match opts with
  | [] => (template, None)
  | o :: rest =>
      match o (clock 0%nat) template with
      | (template', Some err) => (template', Some err)
      | (template', None) =>
          NewConsumerConfiguration (fun k => clock (S k)) template' rest
      end
  end.

End DataModel.

(** ** Collaborators

    Everything below is declared outside consumers.go and is only used
    through the names listed here. *)

(** [nats.Msg]. *)
Record Msg : Type := mkMsg {
  Subject : string;
  Reply : string;
  Data : string
}.

(** A Go pair [(v, err)] from a result that is either a value or an error. *)
Definition go_pair {A : Type} (r : A + error) : option A * option error :=
  match r with
  | inl v => (Some v, None)
  | inr err => (None, Some err)
  end.

(** Package [server]: the subjects and markers of the JetStream API and the
    state half of [server.ObservableInfo]. *)
Class Server : Type := {
  server_OK : string;
  JetStreamCreateObservable : string;
  JetStreamObservableInfo : string;
  JetStreamRequestNextPre : string;
  JetStreamObservableAckSamplePre : string;
  ObservableState : Type;
  zeroState : ObservableState
}.

Section Wire.
Context {GT : GoTime} {SV : Server}.

(** [server.CreateObservableRequest]. *)
Record CreateObservableRequest : Type := mkCreateObservableRequest {
  req_MsgSet : string;
  req_Config : ObservableConfig
}.

(** [server.ObservableInfo]. *)
Record ObservableInfo : Type := mkObservableInfo {
  info_Config : ObservableConfig;
  info_State : ObservableState
}.

Definition zeroInfo : ObservableInfo :=
  {| info_Config := zeroConfig; info_State := zeroState |}.

End Wire.

(** Package [encoding/json] at the two types it is used with.
    [json_Unmarshal data v] decodes into [v] and returns what [v] has become
    next to the error. *)
Class Json {GT : GoTime} {SV : Server} : Type := {
  json_Marshal : CreateObservableRequest -> string * option error;
  json_Unmarshal : string -> ObservableInfo -> ObservableInfo * option error
}.

(** The NATS connection [nc]: a state and one transition per method that
    consumers.go calls.  A method answers with its value or with an error
    (nats.go returns a non-nil value exactly when the error is nil). *)
Class Nats : Type := {
  NetState : Type;
  MsgHandler : Type;
  MsgChan : Type;
  Subscription : Type;
  nc_Request :
    string -> string -> Duration -> NetState -> (Msg + error) * NetState;
  nc_Subscribe :
    string -> MsgHandler -> NetState -> (Subscription + error) * NetState;
  nc_ChanSubscribe :
    string -> MsgChan -> NetState -> (Subscription + error) * NetState;
  nc_ChanQueueSubscribe :
    string -> string -> MsgChan -> NetState ->
    (Subscription + error) * NetState;
  nc_SubscribeSync :
    string -> NetState -> (Subscription + error) * NetState;
  nc_QueueSubscribe :
    string -> string -> MsgHandler -> NetState ->
    (Subscription + error) * NetState;
  nc_QueueSubscribeSync :
    string -> string -> NetState -> (Subscription + error) * NetState;
  nc_QueueSubscribeSyncWithChan :
    string -> string -> MsgChan -> NetState ->
    (Subscription + error) * NetState
}.

(** The names of package [jsch] that the functions below use and other
    files of the package declare: the request timeout and the test for an
    error response. *)
Class Package : Type := {
  Timeout : Duration;
  IsErrorResponse : Msg -> bool
}.

(** ** The connection as a world *)

Section World.
Context {NC : Nats}.

(** One entry per call made on [nc]. *)
Inductive Call : Type :=
| CallRequest (subj data : string) (timeout : Duration)
| CallSubscribe (subj : string) (h : MsgHandler)
| CallChanSubscribe (subj : string) (ch : MsgChan)
| CallChanQueueSubscribe (subj group : string) (ch : MsgChan)
| CallSubscribeSync (subj : string)
| CallQueueSubscribe (subj queue : string) (h : MsgHandler)
| CallQueueSubscribeSync (subj queue : string)
| CallQueueSubscribeSyncWithChan (subj queue : string) (ch : MsgChan).

Record World : Type := mkWorld {
  conn : NetState;
  calls : list Call
}.

(** Running one method of [nc]: the connection moves on and the call is
    appended to the log. *)
Definition perform {A : Type} (c : Call)
  (step : NetState -> A * NetState) (w : World) : A * World :=
  let (r, n) := step (conn w) in
  (r, {| conn := n; calls := calls w ++ [c] |}).

Definition Request (subj data : string) (timeout : Duration) :=
  perform (CallRequest subj data timeout) (nc_Request subj data timeout).

Definition Subscribe (subj : string) (h : MsgHandler) :=
  perform (CallSubscribe subj h) (nc_Subscribe subj h).

Definition ChanSubscribe (subj : string) (ch : MsgChan) :=
  perform (CallChanSubscribe subj ch) (nc_ChanSubscribe subj ch).

Definition ChanQueueSubscribe (subj group : string) (ch : MsgChan) :=
  perform (CallChanQueueSubscribe subj group ch)
          (nc_ChanQueueSubscribe subj group ch).

Definition SubscribeSync (subj : string) :=
  perform (CallSubscribeSync subj) (nc_SubscribeSync subj).

Definition QueueSubscribe (subj queue : string) (h : MsgHandler) :=
  perform (CallQueueSubscribe subj queue h) (nc_QueueSubscribe subj queue h).

Definition QueueSubscribeSync (subj queue : string) :=
  perform (CallQueueSubscribeSync subj queue)
          (nc_QueueSubscribeSync subj queue).

Definition QueueSubscribeSyncWithChan (subj queue : string) (ch : MsgChan) :=
  perform (CallQueueSubscribeSyncWithChan subj queue ch)
          (nc_QueueSubscribeSyncWithChan subj queue ch).

End World.

(** ** Consumers: loader, builder, handle *)

Section Consumers.
Context {GT : GoTime} {SV : Server} {JS : Json} {NC : Nats} {PK : Package}.

(** [type Consumer struct].  The Go code passes handles by pointer; a method
    that writes to the handle returns the handle as it is after the call. *)
Record Consumer : Type := mkConsumer {
  name : string;
  stream : string;
  cfg : ObservableConfig
}.

Definition set_cfg (v : ObservableConfig) (c : Consumer) : Consumer :=
  {| name := name c; stream := stream c; cfg := v |}.

Definition is_nil {A : Type} (p : option A) : bool :=
  match p with
  | None => true
  | Some _ => false
  end.

Definition loadConsumerInfo (s c : string) (w : World)
  : (ObservableInfo * option error) * World :=
  match Request JetStreamObservableInfo (s ++ " " ++ c) Timeout w with
  | (inr err, w1) => ((zeroInfo, Some err), w1)
  | (inl response, w1) =>
      if IsErrorResponse response then
        ((zeroInfo, Some (Errorf (Data response))), w1)
      else
        match json_Unmarshal (Data response) zeroInfo with
        | (info, Some err) => ((info, Some err), w1)
        | (info, None) => ((info, None), w1)
        end
  end.

Definition loadConfigForConsumer (consumer : Consumer) (w : World)
  : (Consumer * option error) * World :=
  match loadConsumerInfo (stream consumer) (name consumer) w with
  | ((info, Some err), w1) => ((consumer, Some err), w1)
  | ((info, None), w1) => ((set_cfg (info_Config info) consumer, None), w1)
  end.

Definition LoadConsumer (stream name : string) (w : World)
  : (option Consumer * option error) * World :=
  let consumer := {| name := name; stream := stream; cfg := zeroConfig |} in
  match loadConfigForConsumer consumer w with
  | ((consumer', Some err), w1) => ((None, Some err), w1)
  | ((consumer', None), w1) => ((Some consumer', None), w1)
  end.

Definition NewConsumerFromTemplate (clock : nat -> Time) (stream : string)
  (template : ObservableConfig) (opts : list ConsumerOption) (w : World)
  : (option Consumer * option error) * World :=
  match NewConsumerConfiguration clock template opts with
  | (cfg, Some err) => ((None, Some err), w)
  | (cfg, None) =>
      let req := {| req_MsgSet := stream; req_Config := cfg |} in
      match json_Marshal req with
      | (jreq, Some err) => ((None, Some err), w)
      | (jreq, None) =>
          match Request JetStreamCreateObservable jreq Timeout w with
          | (inr err, w1) => ((None, Some err), w1)
          | (inl response, w1) =>
              if negb (HasPrefix (Data response) server_OK) then
                ((None, Some (Errorf (Data response))), w1)
              else if negb (String.eqb (Durable cfg) "") then
                LoadConsumer stream (Durable cfg) w1
              else ((None, None), w1)
          end
      end
  end.

Definition NewConsumer (clock : nat -> Time) (stream : string)
  (opts : list ConsumerOption) :=
  NewConsumerFromTemplate clock stream DefaultConsumer opts.

Definition LoadOrNewConsumerFromTemplate (clock : nat -> Time)
  (stream name : string) (template : ObservableConfig)
  (opts : list ConsumerOption) (w : World)
  : (option Consumer * option error) * World :=
  match LoadConsumer stream name w with
  | ((c, err), w1) =>
      if is_nil c || negb (is_nil err) then
        NewConsumerFromTemplate clock stream template opts w1
      else ((c, err), w1)
  end.

Definition LoadOrNewConsumer (clock : nat -> Time) (stream name : string)
  (opts : list ConsumerOption) :=
  LoadOrNewConsumerFromTemplate clock stream name DefaultConsumer opts.

(** *** Methods of the handle *)

Definition Consumer_Reset (c : Consumer) (w : World)
  : (Consumer * option error) * World :=
  loadConfigForConsumer c w.

Definition Consumer_Name (c : Consumer) : string := name c.
Definition Consumer_StreamName (c : Consumer) : string := stream c.
Definition Consumer_Configuration (c : Consumer) : ObservableConfig := cfg c.
Definition Consumer_DeliverySubject (c : Consumer) : string :=
  Delivery (cfg c).
Definition Consumer_DurableName (c : Consumer) : string := Durable (cfg c).
Definition Consumer_SampleFrequency (c : Consumer) : string :=
  SampleFrequency (cfg c).
Definition Consumer_IsPullMode (c : Consumer) : bool :=
  String.eqb (Delivery (cfg c)) "".
Definition Consumer_IsPushMode (c : Consumer) : bool :=
  negb (Consumer_IsPullMode c).
Definition Consumer_IsDurable (c : Consumer) : bool :=
  negb (String.eqb (Durable (cfg c)) "").

Definition Consumer_NextSubject (c : Consumer) : string :=
  if negb (Consumer_IsPullMode c) then ""
  else JetStreamRequestNextPre ++ "." ++ stream c ++ "." ++ name c.

Definition Consumer_SampleSubject (c : Consumer) : string :=
  if String.eqb (Consumer_SampleFrequency c) "" then ""
  else JetStreamObservableAckSamplePre ++ "." ++ Consumer_StreamName c
       ++ "." ++ name c.

Definition Consumer_IsSampled (c : Consumer) : bool :=
  negb (String.eqb (Consumer_SampleSubject c) "").

Definition not_push_based (c : Consumer) : error :=
  Errorf ("consumer " ++ stream c ++ " > " ++ name c ++ " is not push-based").

Definition not_pull_based (c : Consumer) : error :=
  Errorf ("consumer " ++ stream c ++ " > " ++ name c ++ " is not pull-based").

(** The tail of every subscribe method: hand the call to [nc] and return its
    pair. *)
Definition delegate {A : Type} (call : World -> (A + error) * World)
  (w : World) : (option A * option error) * World :=
  let (r, w1) := call w in (go_pair r, w1).

Definition Consumer_Subscribe (c : Consumer) (h : MsgHandler) (w : World) :=
  if negb (Consumer_IsPushMode c) then ((None, Some (not_push_based c)), w)
  else delegate (Subscribe (Consumer_DeliverySubject c) h) w.

Definition Consumer_ChanSubscribe (c : Consumer) (ch : MsgChan) (w : World) :=
  if negb (Consumer_IsPushMode c) then ((None, Some (not_push_based c)), w)
  else delegate (ChanSubscribe (Consumer_DeliverySubject c) ch) w.

Definition Consumer_ChanQueueSubscribe (c : Consumer) (group : string)
  (ch : MsgChan) (w : World) :=
  if negb (Consumer_IsPushMode c) then ((None, Some (not_push_based c)), w)
  else delegate (ChanQueueSubscribe (Consumer_DeliverySubject c) group ch) w.

Definition Consumer_SubscribeSync (c : Consumer) (w : World) :=
  if negb (Consumer_IsPushMode c) then ((None, Some (not_push_based c)), w)
  else delegate (SubscribeSync (Consumer_DeliverySubject c)) w.

Definition Consumer_QueueSubscribe (c : Consumer) (queue : string)
  (h : MsgHandler) (w : World) :=
  if negb (Consumer_IsPushMode c) then ((None, Some (not_push_based c)), w)
  else delegate (QueueSubscribe (Consumer_DeliverySubject c) queue h) w.

Definition Consumer_QueueSubscribeSync (c : Consumer) (queue : string)
  (w : World) :=
  if negb (Consumer_IsPushMode c) then ((None, Some (not_push_based c)), w)
  else delegate (QueueSubscribeSync (Consumer_DeliverySubject c) queue) w.

Definition Consumer_QueueSubscribeSyncWithChan (c : Consumer)
  (queue : string) (ch : MsgChan) (w : World) :=
  if negb (Consumer_IsPushMode c) then ((None, Some (not_push_based c)), w)
  else
    delegate
      (QueueSubscribeSyncWithChan (Consumer_DeliverySubject c) queue ch) w.

Definition Consumer_NextMsgs (c : Consumer) (n : Z) (w : World)
  : (option Msg * option error) * World :=
  if negb (Consumer_IsPullMode c) then ((None, Some (not_pull_based c)), w)
  else delegate (Request (Consumer_NextSubject c) (Itoa n) Timeout) w.

Definition Consumer_NextMsg (c : Consumer) (w : World) :=
  Consumer_NextMsgs c 1 w.

Definition Consumer_State (c : Consumer) (w : World)
  : (ObservableState * option error) * World :=
  match loadConsumerInfo (stream c) (name c) w with
  | ((info, Some err), w1) => ((zeroState, Some err), w1)
  | ((info, None), w1) => ((info_State info, None), w1)
  end.

End Consumers.

(** ** Vocabulary of the properties *)

Section Vocabulary.
Context {GT : GoTime}.

(** The fields of the configuration an option can assign. *)
Inductive Field : Type :=
| FDelivery | FDurable | FMsgSetSeq | FStartTime | FDeliverAll | FDeliverLast
| FAckPolicy | FAckWait | FMaxDeliver | FFilterSubject | FReplayPolicy
| FSampleFrequency.

(** [writes o f]: [o] is one of the options consumers.go defines, and [f] is
    the field its closure assigns. *)
Inductive writes : ConsumerOption -> Field -> Prop :=
| writes_DeliverySubject s : writes (DeliverySubject s) FDelivery
| writes_DurableName s : writes (DurableName s) FDurable
| writes_StartAtSequence s : writes (StartAtSequence s) FMsgSetSeq
| writes_StartAtTime t : writes (StartAtTime t) FStartTime
| writes_DeliverAllAvailable : writes DeliverAllAvailable FDeliverAll
| writes_StartWithLastReceived : writes StartWithLastReceived FDeliverLast
| writes_StartAtTimeDelta d : writes (StartAtTimeDelta d) FStartTime
| writes_AcknowledgeNone : writes AcknowledgeNone FAckPolicy
| writes_AcknowledgeAll : writes AcknowledgeAll FAckPolicy
| writes_AcknowledgeExplicit : writes AcknowledgeExplicit FAckPolicy
| writes_AckWait t : writes (AckWait t) FAckWait
| writes_MaxDeliveryAttempts n : writes (MaxDeliveryAttempts n) FMaxDeliver
| writes_FilterStreamBySubject s :
    writes (FilterStreamBySubject s) FFilterSubject
| writes_ReplayInstantly : writes ReplayInstantly FReplayPolicy
| writes_ReplayAsReceived : writes ReplayAsReceived FReplayPolicy
| writes_SamplePercent i : writes (SamplePercent i) FSampleFrequency.

(** The options of the catalog. *)
Definition catalog (o : ConsumerOption) : Prop := exists f, writes o f.


(** A clock that reads the same instant at every option. *)
Definition frozen (now : Time) : nat -> Time := fun _ => now.

End Vocabulary.

(** ** A small concrete world

    A clock counting nanoseconds, and a server that remembers the consumers
    it was asked to create under the key [stream ++ " " ++ durable]. *)

Module Demo.

Definition time : GoTime :=
  {| Time := Z; zeroTime := 0; time_Add := Z.add |}.

Definition server : Server :=
  {| server_OK := "+OK";
     JetStreamCreateObservable := "$JS.OBSERVABLE.CREATE";
     JetStreamObservableInfo := "$JS.OBSERVABLE.INFO";
     JetStreamRequestNextPre := "$JS.RN";
     JetStreamObservableAckSamplePre := "$JS.OBSERVABLE.ACKSAMPLE";
     ObservableState := Z;
     zeroState := 0 |}.

(** The codec writes a request as its key and reads a key back as the
    default configuration with the key as durable name; the empty document
    does not parse. *)
Definition json : @Json time server :=
  {| json_Marshal := fun req =>
       (req_MsgSet req ++ " " ++ Durable (req_Config req), None);
     json_Unmarshal := fun data v =>
       if String.eqb data "" then
         (v, Some (Foreign "json" "unexpected end of JSON input"))
       else
         (@mkObservableInfo time server
            (set_Durable data DefaultConsumer) 0, None) |}.

Fixpoint known (key : string) (keys : list string) : bool :=
  match keys with
  | [] => false
  | k :: rest => String.eqb k key || known key rest
  end.

Definition reply (data : string) : Msg :=
  {| Subject := "_INBOX.1"; Reply := ""; Data := data |}.

Definition request (subj data : string) (timeout : Duration)
  (keys : list string) : (Msg + error) * list string :=
  if prefix "offline " data then (inr (Foreign "nats" "timeout"), keys)
  else if String.eqb subj "$JS.OBSERVABLE.CREATE" then
    (inl (reply "+OK"), data :: keys)
  else if String.eqb subj "$JS.OBSERVABLE.INFO" then
    if known data keys then (inl (reply data), keys)
    else (inl (reply "-ERR consumer not found"), keys)
  else (inl (reply ""), keys).

Definition nats : Nats :=
  {| NetState := list string;
     MsgHandler := unit;
     MsgChan := unit;
     Subscription := string;
     nc_Request := request;
     nc_Subscribe := fun subj _ keys => (inl subj, keys);
     nc_ChanSubscribe := fun subj _ keys => (inl subj, keys);
     nc_ChanQueueSubscribe := fun subj _ _ keys => (inl subj, keys);
     nc_SubscribeSync := fun subj keys => (inl subj, keys);
     nc_QueueSubscribe := fun subj _ _ keys => (inl subj, keys);
     nc_QueueSubscribeSync := fun subj _ keys => (inl subj, keys);
     nc_QueueSubscribeSyncWithChan := fun subj _ _ keys => (inl subj, keys) |}.

Definition package : Package :=
  {| Timeout := 5 * Second;
     IsErrorResponse := fun m => prefix "-ERR" (Data m) |}.

(** A fresh connection: the server knows no consumer, nothing was called. *)
Definition fresh : @World nats := @mkWorld nats [] [].

(** A handle on a pull consumer and one on a push consumer. *)
Definition puller : @Consumer time :=
  {| name := "worker"; stream := "ORDERS"; cfg := DefaultConsumer |}.

Definition pusher : @Consumer time :=
  {| name := "mailer"; stream := "ORDERS";
     cfg := set_Delivery "deliver.mailer" SampledDefaultConsumer |}.

End Demo.

(** ** The rest of the handle *)

Section Accessors.
Context {GT : GoTime}.

Definition Consumer_StreamSequence (c : Consumer) : Z := MsgSetSeq (cfg c).
Definition Consumer_StartTime (c : Consumer) : Time := StartTime (cfg c).
Definition Consumer_DeliverAll (c : Consumer) : bool := DeliverAll (cfg c).
Definition Consumer_DeliverLast (c : Consumer) : bool := DeliverLast (cfg c).
Definition Consumer_AckPolicy (c : Consumer) : AckPolicy :=
  AckPolicy_ (cfg c).
Definition Consumer_AckWait (c : Consumer) : Duration := AckWait_ (cfg c).
Definition Consumer_MaxDeliver (c : Consumer) : Z := MaxDeliver (cfg c).
Definition Consumer_FilterSubject (c : Consumer) : string :=
  FilterSubject (cfg c).
Definition Consumer_ReplayPolicy (c : Consumer) : ReplayPolicy :=
  ReplayPolicy_ (cfg c).

(** [agree f a b]: the configurations [a] and [b] hold the same value in
    field [f]. *)
Definition agree (f : Field) (a b : ObservableConfig) : Prop :=
  match f with
  | FDelivery => Delivery a = Delivery b
  | FDurable => Durable a = Durable b
  | FMsgSetSeq => MsgSetSeq a = MsgSetSeq b
  | FStartTime => StartTime a = StartTime b
  | FDeliverAll => DeliverAll a = DeliverAll b
  | FDeliverLast => DeliverLast a = DeliverLast b
  | FAckPolicy => AckPolicy_ a = AckPolicy_ b
  | FAckWait => AckWait_ a = AckWait_ b
  | FMaxDeliver => MaxDeliver a = MaxDeliver b
  | FFilterSubject => FilterSubject a = FilterSubject b
  | FReplayPolicy => ReplayPolicy_ a = ReplayPolicy_ b
  | FSampleFrequency => SampleFrequency a = SampleFrequency b
  end.

End Accessors.

(** What [Consumer.Delete] needs beyond the above: the delete subject of
    package [server], the OK test of package [jsch], and the [%q] verb of
    package [fmt] (the Go-syntax quoting of a byte string). *)
Class Deletion : Type := {
  JetStreamDeleteObservable : string;
  IsOKResponse : Msg -> bool;
  fmt_q : string -> string
}.

Section Delete.
Context {GT : GoTime} {NC : Nats} {PK : Package} {DL : Deletion}.

Definition Consumer_Delete (c : Consumer) (w : World)
  : option error * World :=
  match
    Request JetStreamDeleteObservable
      (Consumer_StreamName c ++ " " ++ Consumer_Name c) Timeout w
  with
  | (inr err, w1) => (Some err, w1)
  | (inl response, w1) =>
      if IsErrorResponse response then
        (Some (Errorf (Data response)), w1)
      else if IsOKResponse response then (None, w1)
      else
        (Some (Errorf ("unknown response while removing consumer "
                       ++ Consumer_Name c ++ ": "
                       ++ fmt_q (Data response))), w1)
  end.

End Delete.

(** ** More of the concrete world *)

Module Scenario.

(** Deleting a known consumer is answered by the OK marker; the quoting is
    only given for the bare replies this server sends. *)
Definition deletion : Deletion :=
  {| JetStreamDeleteObservable := "$JS.OBSERVABLE.DELETE";
     IsOKResponse := fun m => prefix "+OK" (Data m);
     fmt_q := fun s =>
       String (ascii_of_nat 34) s ++ String (ascii_of_nat 34) "" |}.

(** A connection to a server that already knows the consumer [worker] of
    stream [ORDERS]. *)
Definition stocked : @World Demo.nats := @mkWorld Demo.nats ["ORDERS worker"] [].

End Scenario.

(** * Properties *)

(** ** Strings *)

Lemma append_dot_nonempty : forall a b : string, a ++ "." ++ b <> "".
Proof.
  intros a b; destruct a as [|ch a]; simpl; discriminate.
Qed.

Lemma append_percent_nonempty : forall a : string, a ++ "%" <> "".
Proof.
  intros a; destruct a as [|ch a]; simpl; discriminate.
Qed.

Lemma eqb_empty_false : forall s : string, s <> "" -> String.eqb s "" = false.
Proof.
  intros s Hs; apply String.eqb_neq; exact Hs.
Qed.

Section OptionProperties.
Context {GT : GoTime}.

(** C3. For every integer [n <> 0] and every descriptor,
    [MaxDeliveryAttempts n] succeeds and sets the max-deliver field to [n]
    (every other field keeps its value); [MaxDeliveryAttempts 0] fails with
    the error "configuration would prevent all deliveries" and leaves the
    descriptor unchanged. *)
Theorem MaxDeliveryAttempts_sets_or_rejects :
  forall (n : Z) (now : Time) (o : ObservableConfig),
    (n <> 0 ->
       MaxDeliveryAttempts n now o = (set_MaxDeliver n o, None) /\
       MaxDeliver (fst (MaxDeliveryAttempts n now o)) = n) /\
    MaxDeliveryAttempts 0 now o =
      (o, Some (Errorf "configuration would prevent all deliveries")).
Proof.
  intros n now o; split.
  - intros Hn; unfold MaxDeliveryAttempts.
    destruct (Z.eqb_spec n 0) as [E | _]; [contradiction|].
    split; reflexivity.
  - reflexivity.
Qed.

End OptionProperties.

Section HandleProperties.
Context {GT : GoTime} {SV : Server}.

Lemma SampleSubject_empty_iff :
  forall c : Consumer,
    Consumer_SampleSubject c = "" <-> SampleFrequency (cfg c) = "".
Proof.
  intros c; unfold Consumer_SampleSubject, Consumer_SampleFrequency.
  destruct (String.eqb_spec (SampleFrequency (cfg c)) "") as [E | E].
  - tauto.
  - split; [intros H; exfalso; exact (append_dot_nonempty _ _ H) | tauto].
Qed.

Lemma IsSampled_iff_frequency :
  forall c : Consumer,
    Consumer_IsSampled c = true <-> SampleFrequency (cfg c) <> "".
Proof.
  intros c; unfold Consumer_IsSampled.
  rewrite negb_true_iff, String.eqb_neq, SampleSubject_empty_iff; tauto.
Qed.

(** C4. For every integer [i] and every descriptor, [SamplePercent i]
    succeeds if and only if [0 <= i <= 100]; outside that range it fails with
    the error "sample percent must be 0-100" and leaves the descriptor
    unchanged; inside it only the sample frequency is assigned;
    [SamplePercent 0] clears sampling, so that a handle on the result is not
    sampled, and for [1 <= i <= 100] a handle on the result is sampled. *)
Theorem SamplePercent_range :
  forall (i : Z) (now : Time) (o : ObservableConfig) (nm st : string),
    let r := SamplePercent i now o in
    (snd r = None <-> 0 <= i <= 100) /\
    (~ 0 <= i <= 100 ->
       r = (o, Some (Errorf "sample percent must be 0-100"))) /\
    (0 <= i <= 100 -> exists s, r = (set_SampleFrequency s o, None)) /\
    (i = 0 ->
       SampleFrequency (fst r) = "" /\
       Consumer_IsSampled (mkConsumer nm st (fst r)) = false) /\
    (1 <= i <= 100 ->
       SampleFrequency (fst r) = Itoa i ++ "%" /\
       Consumer_IsSampled (mkConsumer nm st (fst r)) = true).
Proof.
  intros i now o nm st; unfold SamplePercent; cbv zeta.
  destruct (Z.ltb_spec i 0) as [Hlo | Hlo];
    [| destruct (Z.gtb_spec i 100) as [Hhi | Hhi]];
    cbn [orb].
  1, 2: cbn [fst snd]; split; [split; [discriminate | lia] |];
        split; [reflexivity |]; repeat split; intros; lia.
  destruct (Z.eqb_spec i 0) as [E0 | E0]; cbn [fst snd].
  - split; [split; [lia | reflexivity] |].
    split; [intros H; lia |].
    split; [intros _; eexists; reflexivity |].
    split; [intros _; split; reflexivity | intros H; lia].
  - split; [split; [lia | reflexivity] |].
    split; [intros H; lia |].
    split; [intros _; eexists; reflexivity |].
    split; [intros H; lia |].
    intros _; split; [reflexivity |].
    apply IsSampled_iff_frequency; cbn [cfg].
    unfold set_SampleFrequency; cbn [SampleFrequency].
    apply append_percent_nonempty.
Qed.

(** C5. For every handle, [IsPullMode] holds if and only if the descriptor's
    delivery subject is the empty string, [IsPushMode] is the negation of
    [IsPullMode], and exactly one of the two modes holds. *)
Theorem pull_push_partition :
  forall c : Consumer,
    (Consumer_IsPullMode c = true <-> Consumer_DeliverySubject c = "") /\
    (Consumer_IsPushMode c = true <-> Consumer_DeliverySubject c <> "") /\
    Consumer_IsPushMode c = negb (Consumer_IsPullMode c) /\
    xorb (Consumer_IsPullMode c) (Consumer_IsPushMode c) = true.
Proof.
  intros c; unfold Consumer_IsPushMode, Consumer_IsPullMode,
    Consumer_DeliverySubject.
  destruct (String.eqb_spec (Delivery (cfg c)) "") as [E | E]; cbn;
    (split; [| split; [| split]]); try reflexivity; split;
    congruence.
Qed.

(** C6. For every handle, [NextSubject] is non-empty if and only if the
    handle is pull-mode, that is if and only if the descriptor has no
    delivery subject, and is the empty string for push-mode; [SampleSubject]
    is non-empty if and only if the handle is sampled, that is if and only
    if the descriptor's sample frequency is set, and is the empty string
    otherwise; when non-empty, each is the fixed prefix, the stream name and
    the consumer name joined by dots. *)
Theorem subjects_follow_mode :
  forall c : Consumer,
    (Consumer_NextSubject c <> "" <-> Consumer_IsPullMode c = true) /\
    (Consumer_IsPushMode c = true -> Consumer_NextSubject c = "") /\
    (Consumer_IsPullMode c = true ->
       Consumer_NextSubject c =
         JetStreamRequestNextPre ++ "." ++ stream c ++ "." ++ name c) /\
    (Consumer_SampleSubject c <> "" <-> Consumer_IsSampled c = true) /\
    (Consumer_IsSampled c = false -> Consumer_SampleSubject c = "") /\
    (Consumer_IsSampled c = true ->
       Consumer_SampleSubject c =
         JetStreamObservableAckSamplePre ++ "." ++ stream c ++ "." ++ name c)
    /\
    (Delivery (cfg c) = "" ->
       Consumer_NextSubject c =
         JetStreamRequestNextPre ++ "." ++ stream c ++ "." ++ name c) /\
    (Delivery (cfg c) <> "" -> Consumer_NextSubject c = "") /\
    (SampleFrequency (cfg c) = "" ->
       Consumer_SampleSubject c = "" /\ Consumer_IsSampled c = false) /\
    (SampleFrequency (cfg c) <> "" ->
       Consumer_SampleSubject c =
         JetStreamObservableAckSamplePre ++ "." ++ stream c ++ "." ++ name c
       /\ Consumer_IsSampled c = true).
Proof.
  intros c.
  assert (Hnext : (Delivery (cfg c) = "" ->
                   Consumer_IsPullMode c = true /\
                   Consumer_NextSubject c =
                     JetStreamRequestNextPre ++ "." ++ stream c ++ "."
                     ++ name c) /\
                  (Delivery (cfg c) <> "" ->
                   Consumer_IsPullMode c = false /\
                   Consumer_NextSubject c = "")).
  { unfold Consumer_NextSubject, Consumer_IsPullMode.
    destruct (String.eqb_spec (Delivery (cfg c)) "") as [E | E]; cbn;
      split; intros H; try contradiction; split; reflexivity. }
  assert (Hsample : (SampleFrequency (cfg c) = "" ->
                     Consumer_IsSampled c = false /\
                     Consumer_SampleSubject c = "") /\
                    (SampleFrequency (cfg c) <> "" ->
                     Consumer_IsSampled c = true /\
                     Consumer_SampleSubject c =
                       JetStreamObservableAckSamplePre ++ "." ++ stream c
                       ++ "." ++ name c)).
  { split; intros H.
    - split; [apply not_true_is_false; rewrite IsSampled_iff_frequency; tauto
             | apply SampleSubject_empty_iff; exact H].
    - split; [apply IsSampled_iff_frequency; exact H |].
      unfold Consumer_SampleSubject, Consumer_SampleFrequency,
        Consumer_StreamName.
      rewrite (eqb_empty_false _ H); reflexivity. }
  destruct Hnext as [Hpull Hpush]; destruct Hsample as [Hoff Hon].
  unfold Consumer_IsPushMode.
  destruct (String.eqb_spec (Delivery (cfg c)) "") as [Ed | Ed];
    [destruct (Hpull Ed) as [Hm Hs] | destruct (Hpush Ed) as [Hm Hs]];
    (destruct (String.eqb_spec (SampleFrequency (cfg c)) "") as [Ef | Ef];
     [destruct (Hoff Ef) as [Hi Hj] | destruct (Hon Ef) as [Hi Hj]]);
    rewrite ?Hm, ?Hs, ?Hi, ?Hj; cbn [negb];
    repeat split; intros; try congruence; try discriminate;
    try (exfalso; eapply append_dot_nonempty; eassumption);
    try (apply append_dot_nonempty).
Qed.

End HandleProperties.

(** ** The option loop *)

Section LoopProperties.
Context {GT : GoTime}.

(** Options that succeed are applied one after the other; the rest of the
    list then runs on the clock shifted by as many instants. *)
Lemma NewConsumerConfiguration_app :
  forall (pre post : list ConsumerOption) (clock : nat -> Time)
         (template c : ObservableConfig),
    NewConsumerConfiguration clock template pre = (c, None) ->
    NewConsumerConfiguration clock template (pre ++ post)%list =
    NewConsumerConfiguration (fun k => clock (List.length pre + k)%nat) c post.
Proof.
  induction pre as [| o pre IH]; intros post clock template c Hpre.
  - cbn in Hpre; injection Hpre as ->; reflexivity.
  - cbn in Hpre |- *.
    destruct (o (clock 0%nat) template) as [t' [err |]]; [discriminate |].
    exact (IH post _ t' c Hpre).
Qed.

(** The loop stops at the first option that returns an error, whatever the
    closure is: the options after it are not run, and the copy is returned
    as that closure left it. *)
Lemma NewConsumerConfiguration_stops :
  forall (pre post : list ConsumerOption) (o : ConsumerOption)
         (clock : nat -> Time) (template c : ObservableConfig) (e : error),
    NewConsumerConfiguration clock template pre = (c, None) ->
    snd (o (clock (List.length pre)) c) = Some e ->
    NewConsumerConfiguration clock template (pre ++ o :: post)%list =
    (fst (o (clock (List.length pre)) c), Some e).
Proof.
  intros pre post o clock template c e Hpre Ho.
  rewrite (NewConsumerConfiguration_app pre (o :: post) clock template c Hpre).
  cbn. rewrite Nat.add_0_r.
  destruct (o (clock (List.length pre)) c) as [c' [err |]]; cbn in Ho |- *.
  - injection Ho as ->; reflexivity.
  - discriminate.
Qed.

(** An error of the loop comes from a first failing option. *)
Lemma NewConsumerConfiguration_error_origin :
  forall (opts : list ConsumerOption) (clock : nat -> Time)
         (template : ObservableConfig) (e : error),
    snd (NewConsumerConfiguration clock template opts) = Some e ->
    exists pre o post c,
      opts = (pre ++ o :: post)%list /\
      NewConsumerConfiguration clock template pre = (c, None) /\
      snd (o (clock (List.length pre)) c) = Some e.
Proof.
  induction opts as [| o rest IH]; intros clock template e H.
  - discriminate.
  - cbn in H.
    destruct (o (clock 0%nat) template) as [t' [err |]] eqn:Eo.
    + exists [], o, rest, template; cbn; rewrite Eo; cbn.
      cbn in H; auto.
    + destruct (IH _ t' e H) as (pre & o' & post & c & -> & Hpre & Ho').
      exists (o :: pre), o', post, c; cbn; rewrite Eo; auto.
Qed.

Ltac option_cases :=
  repeat match goal with
    | |- context [Z.eqb ?a ?b] => destruct (Z.eqb a b)
    | |- context [orb (Z.ltb ?a ?b) ?r] => destruct (orb (Z.ltb a b) r)
    | H : context [Z.eqb ?a ?b] |- _ => destruct (Z.eqb a b)
    | H : context [orb (Z.ltb ?a ?b) ?r] |- _ => destruct (orb (Z.ltb a b) r)
    end.

(** An option of the catalog either succeeds on every configuration at every
    instant, or fails on all of them with one error and without touching
    the configuration. *)
Lemma catalog_option_decides_early :
  forall o : ConsumerOption,
    catalog o ->
    (forall now c, snd (o now c) = None) \/
    (exists e, forall now c, o now c = (c, Some e)).
Proof.
  intros o [f Hw]; destruct Hw;
    try (left; intros now c; reflexivity).
  - unfold MaxDeliveryAttempts; destruct (n =? 0);
      [right; eexists; intros; reflexivity | left; intros; reflexivity].
  - unfold SamplePercent; destruct ((i <? 0) || (i >? 100));
      [right; eexists; intros; reflexivity |].
    left; intros; destruct (i =? 0); reflexivity.
Qed.

Lemma catalog_option_fails_clean :
  forall (o : ConsumerOption) (now : Time) (c : ObservableConfig) (e : error),
    catalog o -> snd (o now c) = Some e -> o now c = (c, Some e).
Proof.
  intros o now c e Hcat He.
  destruct (catalog_option_decides_early o Hcat) as [Hok | [e' Hko]].
  - rewrite Hok in He; discriminate.
  - rewrite Hko in He |- *; cbn in He; injection He as ->; reflexivity.
Qed.

Lemma agree_refl : forall (f : Field) (a : ObservableConfig), agree f a a.
Proof. intros f a; destruct f; reflexivity. Qed.

Lemma agree_trans :
  forall (f : Field) (a b c : ObservableConfig),
    agree f a b -> agree f b c -> agree f a c.
Proof. intros f a b c; destruct f; cbn; congruence. Qed.

(** One option leaves every field but its own as it found it, whether it
    succeeds or fails. *)
Lemma option_frame :
  forall (o : ConsumerOption) (f g : Field) (now : Time)
         (c : ObservableConfig),
    writes o f -> g <> f -> agree g (fst (o now c)) c.
Proof.
  intros o f g now c Hw Hg.
  destruct Hw; unfold MaxDeliveryAttempts, SamplePercent;
    repeat match goal with
      | |- context [Z.eqb ?a ?b] => destruct (Z.eqb a b)
      | |- context [orb (Z.ltb ?a ?b) ?r] => destruct (orb (Z.ltb a b) r)
      end;
    destruct g; try reflexivity; contradiction Hg; reflexivity.
Qed.

(** Of two successful options on the same field the second alone decides
    the result: the loop over both is the loop over the second, run at the
    second instant. *)
Lemma same_field_later_decides :
  forall (o1 o2 : ConsumerOption) (f : Field) (clock : nat -> Time)
         (c : ObservableConfig),
    writes o1 f -> writes o2 f ->
    snd (NewConsumerConfiguration clock c [o1; o2]) = None ->
    NewConsumerConfiguration clock c [o1; o2] =
    NewConsumerConfiguration (fun k => clock (S k)) c [o2].
Proof.
  intros o1 o2 f clock c H1 H2; revert H2.
  destruct H1; intros H2; inversion H2; subst; cbn;
    unfold MaxDeliveryAttempts, SamplePercent; intros Hok;
    option_cases; cbn in Hok |- *; try discriminate Hok; reflexivity.
Qed.



End LoopProperties.

(** ** Builder, loader and handle operations *)

Section BuilderProperties.
Context {GT : GoTime} {SV : Server} {JS : Json} {NC : Nats} {PK : Package}.

(** A failed option loop ends the build on the spot: no handle, the loop's
    error, and the world as it was. *)
Lemma NewConsumerFromTemplate_validation :
  forall (clock : nat -> Time) (stream : string)
         (template c : ObservableConfig) (opts : list ConsumerOption)
         (e : error) (w : World),
    NewConsumerConfiguration clock template opts = (c, Some e) ->
    NewConsumerFromTemplate clock stream template opts w =
    ((None, Some e), w).
Proof.
  intros clock stream template c opts e w H.
  unfold NewConsumerFromTemplate; rewrite H; reflexivity.
Qed.

(** An option list from the catalog in which some option fails splits at
    its first failing option. *)
Lemma catalog_first_failure :
  forall (opts : list ConsumerOption) (clock : nat -> Time)
         (template : ObservableConfig),
    Forall catalog opts ->
    Exists (fun o => exists now c, snd (o now c) <> None) opts ->
    exists pre o post c e,
      opts = (pre ++ o :: post)%list /\
      NewConsumerConfiguration clock template pre = (c, None) /\
      catalog o /\
      o (clock (List.length pre)) c = (c, Some e).
Proof.
  induction opts as [| o rest IH]; intros clock template Hcat Hex.
  - inversion Hex.
  - inversion Hcat as [| ? ? Ho Hrest]; subst.
    destruct (catalog_option_decides_early o Ho) as [Hok | [e Hko]].
    + assert (Hex' : Exists (fun o => exists now c, snd (o now c) <> None)
                       rest).
      { inversion Hex as [? ? (now & c & Hne) | ? ? Hr]; subst;
          [exfalso; apply Hne; apply Hok | exact Hr]. }
      destruct (IH (fun k => clock (S k)) (fst (o (clock 0%nat) template))
                  Hrest Hex')
        as (pre & o' & post & c & e & -> & Hpre & Hcat' & Ho').
      exists (o :: pre), o', post, c, e; cbn.
      specialize (Hok (clock 0%nat) template).
      destruct (o (clock 0%nat) template) as [t' [err |]];
        [discriminate | cbn in Hpre]; auto.
    + exists [], o, rest, template, e; cbn; auto.
Qed.

(** C1. For every template and every list of options of the catalog, if
    some option of the list fails, the build stops at the first failing
    option: the options before it were applied and gave a descriptor [c],
    the failing option and the options after it change nothing of [c], and
    [NewConsumerFromTemplate] returns no handle, returns that option's
    error, and performs no call on the connection (the world is the one it
    started in). *)
Theorem first_failing_option_aborts_build :
  forall (clock : nat -> Time) (stream : string)
         (template : ObservableConfig) (opts : list ConsumerOption)
         (w : World),
    Forall catalog opts ->
    Exists (fun o => exists now c, snd (o now c) <> None) opts ->
    exists pre o post c e,
      opts = (pre ++ o :: post)%list /\
      NewConsumerConfiguration clock template pre = (c, None) /\
      o (clock (List.length pre)) c = (c, Some e) /\
      NewConsumerConfiguration clock template opts = (c, Some e) /\
      NewConsumerConfiguration clock template (pre ++ [o]) = (c, Some e) /\
      NewConsumerFromTemplate clock stream template opts w =
        ((None, Some e), w).
Proof.
  intros clock stream template opts w Hcat Hex.
  destruct (catalog_first_failure opts clock template Hcat Hex)
    as (pre & o & post & c & e & -> & Hpre & Ho & Hfail).
  assert (Hstop : forall post',
             NewConsumerConfiguration clock template (pre ++ o :: post') =
             (c, Some e)).
  { intros post'.
    rewrite (NewConsumerConfiguration_stops pre post' o clock template c e
               Hpre); rewrite Hfail; reflexivity. }
  exists pre, o, post, c, e.
  repeat split; auto.
  apply NewConsumerFromTemplate_validation with (c := c); apply Hstop.
Qed.

End BuilderProperties.

Section LoaderProperties.
Context {GT : GoTime} {SV : Server} {JS : Json} {NC : Nats} {PK : Package}.

(** Every request appends exactly its own entry to the log. *)
Lemma Request_logged :
  forall (subj data : string) (t : Duration) (w w1 : World)
         (r : Msg + error),
    Request subj data t w = (r, w1) ->
    calls w1 = (calls w ++ [CallRequest subj data t])%list.
Proof.
  intros subj data t w w1 r; unfold Request, perform.
  destruct (nc_Request subj data t (conn w)) as [r' n].
  intros H; injection H as _ <-; reflexivity.
Qed.

(** The describe exchange makes one request, keyed by stream and name. *)
Lemma loadConsumerInfo_logged :
  forall (s c : string) (w w1 : World) (r : ObservableInfo * option error),
    loadConsumerInfo s c w = (r, w1) ->
    calls w1 =
    (calls w ++ [CallRequest JetStreamObservableInfo (s ++ " " ++ c)
                   Timeout])%list.
Proof.
  intros s c w w1 r; unfold loadConsumerInfo.
  destruct (Request JetStreamObservableInfo (s ++ " " ++ c) Timeout w)
    as [[response | err] w2] eqn:Ereq.
  - apply Request_logged in Ereq.
    destruct (IsErrorResponse response);
      [| destruct (json_Unmarshal (Data response) zeroInfo) as [i [e |]]];
      intros H; injection H as _ <-; exact Ereq.
  - apply Request_logged in Ereq.
    intros H; injection H as _ <-; exact Ereq.
Qed.

(** [LoadConsumer] answers with a handle and no error, or with no handle and
    an error; either way it made the one describe request. *)
Lemma LoadConsumer_shape :
  forall (stream name : string) (w : World),
    exists w1,
      calls w1 =
      (calls w ++ [CallRequest JetStreamObservableInfo
                     (stream ++ " " ++ name) Timeout])%list /\
      ((exists c, LoadConsumer stream name w = ((Some c, None), w1)) \/
       (exists e, LoadConsumer stream name w = ((None, Some e), w1))).
Proof.
  intros stream0 name0 w; unfold LoadConsumer, loadConfigForConsumer.
  cbn [stream name].
  destruct (loadConsumerInfo stream0 name0 w) as [[info err] w1] eqn:E.
  exists w1; split; [exact (loadConsumerInfo_logged _ _ _ _ _ E) |].
  destruct err as [e |]; [right | left]; eexists; reflexivity.
Qed.

(** C7. For every build whose creation request was accepted (the options
    succeed, the request serialises, the exchange answers with the OK
    marker): if the final descriptor has a non-empty durable name, the
    builder's result is that of [LoadConsumer] on the stream and that name,
    run right after the creation request (the describe request is the next
    and last entry of the log); if the durable name is empty, the builder
    returns no handle and no error. *)
Theorem accepted_build_reloads_durable :
  forall (clock : nat -> Time) (stream : string)
         (template cfg : ObservableConfig) (opts : list ConsumerOption)
         (jreq : string) (response : Msg) (w w1 : World),
    NewConsumerConfiguration clock template opts = (cfg, None) ->
    json_Marshal (mkCreateObservableRequest stream cfg) = (jreq, None) ->
    Request JetStreamCreateObservable jreq Timeout w = (inl response, w1) ->
    HasPrefix (Data response) server_OK = true ->
    (Durable cfg <> "" ->
       NewConsumerFromTemplate clock stream template opts w =
         LoadConsumer stream (Durable cfg) w1 /\
       calls (snd (NewConsumerFromTemplate clock stream template opts w)) =
         (calls w ++
          [CallRequest JetStreamCreateObservable jreq Timeout;
           CallRequest JetStreamObservableInfo
             (stream ++ " " ++ Durable cfg) Timeout])%list) /\
    (Durable cfg = "" ->
       NewConsumerFromTemplate clock stream template opts w =
         ((None, None), w1) /\
       calls w1 =
         (calls w ++ [CallRequest JetStreamCreateObservable jreq Timeout])%list).
Proof.
  intros clock stream0 template cfg0 opts jreq response w w1 Hcfg Hjson Hreq
    Hok.
  assert (Hlog := Request_logged _ _ _ _ _ _ Hreq).
  unfold NewConsumerFromTemplate; rewrite Hcfg, Hjson, Hreq, Hok; cbn [negb].
  split; intros Hd.
  - rewrite (eqb_empty_false _ Hd); cbn [negb]; split; [reflexivity |].
    destruct (LoadConsumer_shape stream0 (Durable cfg0) w1)
      as (w2 & Hlog2 & [[c Hc] | [e He]]);
      [rewrite Hc | rewrite He]; cbn [snd]; rewrite Hlog2, Hlog;
      rewrite <- app_assoc; reflexivity.
  - rewrite Hd; cbn; split; [reflexivity | exact Hlog].
Qed.

(** The three ways the describe exchange goes wrong all make [LoadConsumer]
    fail. *)
Lemma LoadConsumer_failures :
  forall (stream name : string) (w w1 : World),
    (exists err,
       Request JetStreamObservableInfo (stream ++ " " ++ name) Timeout w =
       (inr err, w1)) \/
    (exists response,
       Request JetStreamObservableInfo (stream ++ " " ++ name) Timeout w =
       (inl response, w1) /\
       (IsErrorResponse response = true \/
        snd (json_Unmarshal (Data response) zeroInfo) <> None)) ->
    exists e, LoadConsumer stream name w = ((None, Some e), w1).
Proof.
  intros stream0 name0 w w1 H.
  unfold LoadConsumer, loadConfigForConsumer, loadConsumerInfo.
  cbn [stream name].
  destruct H as [[err ->] | [response [-> H]]].
  - eexists; reflexivity.
  - destruct (IsErrorResponse response); [eexists; reflexivity |].
    destruct H as [H | H]; [discriminate |].
    destruct (json_Unmarshal (Data response) zeroInfo) as [info [e |]];
      [eexists; reflexivity | contradiction H; reflexivity].
Qed.

(** C8. For every stream, name, template and option list,
    [LoadOrNewConsumerFromTemplate] first runs [LoadConsumer]; the load
    either yields a handle or an error; if it yields a handle, that handle is
    the result and the describe request is the only call made; if it yields
    an error, whichever it is, the result is that of
    [NewConsumerFromTemplate] with the same stream, template and options,
    run in the world the failed load left.  In particular a describe request
    that errors on the connection, one answered by an error marker and one
    whose answer does not parse all lead to the build. *)
Theorem load_or_build_falls_back :
  forall (clock : nat -> Time) (stream name : string)
         (template : ObservableConfig) (opts : list ConsumerOption)
         (w : World),
    let describe :=
      Request JetStreamObservableInfo (stream ++ " " ++ name) Timeout w in
    ((exists c w1, LoadConsumer stream name w = ((Some c, None), w1)) \/
     (exists e w1, LoadConsumer stream name w = ((None, Some e), w1))) /\
    (forall c w1,
       LoadConsumer stream name w = ((Some c, None), w1) ->
       LoadOrNewConsumerFromTemplate clock stream name template opts w =
         ((Some c, None), w1) /\
       calls w1 =
         (calls w ++ [CallRequest JetStreamObservableInfo
                        (stream ++ " " ++ name) Timeout])%list) /\
    (forall e w1,
       LoadConsumer stream name w = ((None, Some e), w1) ->
       LoadOrNewConsumerFromTemplate clock stream name template opts w =
         NewConsumerFromTemplate clock stream template opts w1) /\
    (forall w1,
       (exists err, describe = (inr err, w1)) \/
       (exists response,
          describe = (inl response, w1) /\
          (IsErrorResponse response = true \/
           snd (json_Unmarshal (Data response) zeroInfo) <> None)) ->
       LoadOrNewConsumerFromTemplate clock stream name template opts w =
         NewConsumerFromTemplate clock stream template opts w1).
Proof.
  intros clock stream0 name0 template opts w; cbv zeta.
  destruct (LoadConsumer_shape stream0 name0 w) as (w2 & Hlog & Hshape).
  assert (Hfall : forall e w1,
             LoadConsumer stream0 name0 w = ((None, Some e), w1) ->
             LoadOrNewConsumerFromTemplate clock stream0 name0 template opts w
             = NewConsumerFromTemplate clock stream0 template opts w1).
  { intros e w1 He; unfold LoadOrNewConsumerFromTemplate; rewrite He;
      reflexivity. }
  split; [| split; [| split; [exact Hfall |]]];
    [| | intros w1 Hfail;
         destruct (LoadConsumer_failures stream0 name0 w w1 Hfail) as [e He];
         exact (Hfall e w1 He)].
  - destruct Hshape as [[c Hc] | [e He]]; [left | right]; eauto.
  - intros c w1 Hc; split.
    + unfold LoadOrNewConsumerFromTemplate; rewrite Hc; reflexivity.
    + destruct Hshape as [[c' Hc'] | [e He]].
      * rewrite Hc in Hc'; injection Hc' as _ <-; exact Hlog.
      * rewrite Hc in He; discriminate.
Qed.

End LoaderProperties.

Section ModeProperties.
Context {GT : GoTime} {SV : Server} {NC : Nats} {PK : Package}.

(** C9. For every handle in pull-mode, each subscribe method (callback,
    channel, channel with queue group, synchronous, queue, synchronous queue,
    synchronous queue with channel) returns no subscription and the error
    "consumer <stream> > <name> is not push-based" and leaves the world
    untouched (no call on the connection); for every handle in push-mode,
    [NextMsgs n] returns no message and the error
    "consumer <stream> > <name> is not pull-based" and leaves the world
    untouched; and [NextMsg] is [NextMsgs 1]. *)
Theorem wrong_mode_fails_locally :
  forall (c : Consumer) (w : World),
    (Consumer_IsPullMode c = true ->
       let e := Errorf ("consumer " ++ stream c ++ " > " ++ name c
                        ++ " is not push-based") in
       (forall h, Consumer_Subscribe c h w = ((None, Some e), w)) /\
       (forall ch, Consumer_ChanSubscribe c ch w = ((None, Some e), w)) /\
       (forall g ch,
          Consumer_ChanQueueSubscribe c g ch w = ((None, Some e), w)) /\
       Consumer_SubscribeSync c w = ((None, Some e), w) /\
       (forall q h, Consumer_QueueSubscribe c q h w = ((None, Some e), w)) /\
       (forall q, Consumer_QueueSubscribeSync c q w = ((None, Some e), w)) /\
       (forall q ch,
          Consumer_QueueSubscribeSyncWithChan c q ch w =
            ((None, Some e), w))) /\
    (Consumer_IsPushMode c = true ->
       forall n,
         Consumer_NextMsgs c n w =
           ((None,
             Some (Errorf ("consumer " ++ stream c ++ " > " ++ name c
                           ++ " is not pull-based"))), w)) /\
    Consumer_NextMsg c w = Consumer_NextMsgs c 1 w.
Proof.
  intros c w; split; [| split].
  - intros Hpull; cbv zeta.
    unfold Consumer_Subscribe, Consumer_ChanSubscribe,
      Consumer_ChanQueueSubscribe, Consumer_SubscribeSync,
      Consumer_QueueSubscribe, Consumer_QueueSubscribeSync,
      Consumer_QueueSubscribeSyncWithChan, Consumer_IsPushMode,
      not_push_based.
    rewrite Hpull; cbn [negb].
    repeat split; intros; reflexivity.
  - intros Hpush n; unfold Consumer_NextMsgs, not_pull_based.
    unfold Consumer_IsPushMode in Hpush; rewrite Hpush; reflexivity.
  - reflexivity.
Qed.

End ModeProperties.

Section ResetProperties.
Context {GT : GoTime} {SV : Server} {JS : Json} {NC : Nats} {PK : Package}.

(** C10. For every handle: when the describe request errors, when its
    response is an error marker and when its response does not parse,
    [Reset] fails and returns the handle as it was; whenever [Reset] fails,
    the handle's name, stream and cached descriptor are those it had before
    the call; and when [Reset] succeeds, name and stream are kept and the
    cached descriptor is the one parsed from a response that was not an
    error marker. *)
Theorem failed_reset_keeps_handle :
  forall (c : Consumer) (w : World),
    let describe :=
      Request JetStreamObservableInfo (stream c ++ " " ++ name c) Timeout w in
    (forall err w1,
       describe = (inr err, w1) ->
       Consumer_Reset c w = ((c, Some err), w1)) /\
    (forall response w1,
       describe = (inl response, w1) ->
       IsErrorResponse response = true ->
       Consumer_Reset c w = ((c, Some (Errorf (Data response))), w1)) /\
    (forall response w1 info err,
       describe = (inl response, w1) ->
       IsErrorResponse response = false ->
       json_Unmarshal (Data response) zeroInfo = (info, Some err) ->
       Consumer_Reset c w = ((c, Some err), w1)) /\
    (forall c' e w1,
       Consumer_Reset c w = ((c', Some e), w1) ->
       c' = c /\
       name c' = name c /\ stream c' = stream c /\ cfg c' = cfg c) /\
    (forall c' w1,
       Consumer_Reset c w = ((c', None), w1) ->
       name c' = name c /\ stream c' = stream c /\
       exists response info,
         describe = (inl response, w1) /\
         IsErrorResponse response = false /\
         json_Unmarshal (Data response) zeroInfo = (info, None) /\
         cfg c' = info_Config info).
Proof.
  intros c w; cbv zeta.
  unfold Consumer_Reset, loadConfigForConsumer, loadConsumerInfo.
  destruct (Request JetStreamObservableInfo (stream c ++ " " ++ name c)
              Timeout w) as [[response | err] w2];
    [destruct (IsErrorResponse response) eqn:Eerr;
       [| destruct (json_Unmarshal (Data response) zeroInfo)
            as [info [e |]] eqn:Ejson] |];
    (split; [| split; [| split; [| split]]]); intros;
    repeat match goal with
      | H : (_, _) = (_, _) |- _ => inversion H; clear H; subst
      end;
    try congruence; try (repeat split; reflexivity).
  repeat split; exists response, info; auto.
Qed.

End ResetProperties.

(** * Worked instances in the concrete world *)

Section Instances.
#[local] Existing Instance Demo.time.
#[local] Existing Instance Demo.server.
#[local] Existing Instance Demo.json.
#[local] Existing Instance Demo.nats.
#[local] Existing Instance Demo.package.

(** The build of [AckWait 5; MaxDeliveryAttempts 0; DurableName "x"] on the
    default template stops at its second option. *)
Lemma first_failing_option_aborts_build_witness :
  let opts := [AckWait 5; MaxDeliveryAttempts 0; DurableName "x"] in
  Forall catalog opts /\
  Exists (fun o => exists now c, snd (o now c) <> None) opts /\
  exists pre o post c e,
    opts = (pre ++ o :: post)%list /\
    NewConsumerConfiguration (frozen 100) DefaultConsumer pre = (c, None) /\
    o (frozen 100 (List.length pre)) c = (c, Some e) /\
    NewConsumerConfiguration (frozen 100) DefaultConsumer opts =
      (c, Some e) /\
    NewConsumerConfiguration (frozen 100) DefaultConsumer (pre ++ [o]) =
      (c, Some e) /\
    NewConsumerFromTemplate (frozen 100) "ORDERS" DefaultConsumer opts
      Demo.fresh = ((None, Some e), Demo.fresh).
Proof.
  cbv zeta.
  assert (Hcat : Forall catalog
                   [AckWait 5; MaxDeliveryAttempts 0; DurableName "x"]).
  { repeat constructor; eexists; constructor. }
  assert (Hex : Exists (fun o : ConsumerOption =>
                          exists now c, snd (o now c) <> None)
                  [AckWait 5; MaxDeliveryAttempts 0; DurableName "x"]).
  { apply Exists_cons_tl, Exists_cons_hd.
    exists 0, DefaultConsumer; cbn; discriminate. }
  split; [exact Hcat | split; [exact Hex |]].
  exact (first_failing_option_aborts_build (frozen 100) "ORDERS"
           DefaultConsumer _ Demo.fresh Hcat Hex).
Defined.



(** Why the commutation above asks for success and for one clock reading:
    of two failing options the first one's error is returned, and
    [StartAtTimeDelta] subtracts from the instant at which it runs. *)
Example failing_options_report_in_order :
  snd (NewConsumerConfiguration (frozen 0) DefaultConsumer
         [MaxDeliveryAttempts 0; SamplePercent 101]) =
    Some (Errorf "configuration would prevent all deliveries") /\
  snd (NewConsumerConfiguration (frozen 0) DefaultConsumer
         [SamplePercent 101; MaxDeliveryAttempts 0]) =
    Some (Errorf "sample percent must be 0-100").
Proof. split; reflexivity. Qed.

Example time_delta_reads_its_own_instant :
  let clock := fun k : nat => 100 + Z.of_nat k in
  StartTime (fst (NewConsumerConfiguration clock DefaultConsumer
                    [StartAtTimeDelta 10; DurableName "worker"])) = 90 /\
  StartTime (fst (NewConsumerConfiguration clock DefaultConsumer
                    [DurableName "worker"; StartAtTimeDelta 10])) = 91.
Proof. split; reflexivity. Qed.

Lemma MaxDeliveryAttempts_sets_or_rejects_witness :
  3 <> 0 /\
  MaxDeliveryAttempts 3 0 DefaultConsumer =
    (set_MaxDeliver 3 DefaultConsumer, None) /\
  MaxDeliver (fst (MaxDeliveryAttempts 3 0 DefaultConsumer)) = 3.
Proof.
  assert (H : 3 <> 0) by discriminate.
  split; [exact H |].
  exact (proj1 (MaxDeliveryAttempts_sets_or_rejects 3 0 DefaultConsumer) H).
Defined.

Lemma SamplePercent_range_witness :
  1 <= 30 <= 100 /\
  SampleFrequency (fst (SamplePercent 30 0 DefaultConsumer)) = "30%" /\
  Consumer_IsSampled
    (mkConsumer "worker" "ORDERS" (fst (SamplePercent 30 0 DefaultConsumer)))
  = true.
Proof.
  assert (H : 1 <= 30 <= 100) by (split; discriminate).
  split; [exact H |].
  exact (proj2 (proj2 (proj2 (proj2
           (SamplePercent_range 30 0 DefaultConsumer "worker" "ORDERS"))))
           H).
Defined.

(** A pull handle without sampling and a push handle sampled at 100%. *)
Lemma subjects_follow_mode_witness :
  (Consumer_IsPullMode Demo.puller = true /\
   Consumer_NextSubject Demo.puller = "$JS.RN.ORDERS.worker") /\
  (SampleFrequency (cfg Demo.puller) = "" /\
   Consumer_SampleSubject Demo.puller = "") /\
  (SampleFrequency (cfg Demo.pusher) <> "" /\
   Consumer_SampleSubject Demo.pusher =
     "$JS.OBSERVABLE.ACKSAMPLE.ORDERS.mailer" /\
   Consumer_IsSampled Demo.pusher = true) /\
  (Delivery (cfg Demo.pusher) <> "" /\
   Consumer_NextSubject Demo.pusher = "").
Proof.
  assert (H1 : Consumer_IsPullMode Demo.puller = true) by reflexivity.
  assert (H2 : SampleFrequency (cfg Demo.puller) = "") by reflexivity.
  assert (H3 : SampleFrequency (cfg Demo.pusher) <> "") by discriminate.
  assert (H4 : Delivery (cfg Demo.pusher) <> "") by discriminate.
  assert (Tpull := subjects_follow_mode Demo.puller).
  assert (Tpush := subjects_follow_mode Demo.pusher).
  split; [split; [exact H1 |] | split; [split; [exact H2 |] | split]].
  - exact (proj1 (proj2 (proj2 Tpull)) H1).
  - exact (proj1 (proj1 (proj2 (proj2 (proj2 (proj2 (proj2 (proj2 (proj2
             (proj2 Tpull)))))))) H2)).
  - split; [exact H3 |].
    exact (proj2 (proj2 (proj2 (proj2 (proj2 (proj2 (proj2 (proj2
             (proj2 Tpush)))))))) H3).
  - split; [exact H4 |].
    exact (proj1 (proj2 (proj2 (proj2 (proj2 (proj2 (proj2 (proj2 Tpush)))))))
             H4).
Defined.

Lemma pull_push_partition_witness :
  Consumer_IsPullMode Demo.pusher = false /\
  Consumer_IsPushMode Demo.pusher = true.
Proof.
  assert (H : Consumer_DeliverySubject Demo.pusher <> "") by discriminate.
  assert (Hpush := proj2 (proj1 (proj2 (pull_push_partition Demo.pusher))) H).
  split; [| exact Hpush].
  rewrite (proj1 (proj2 (proj2 (pull_push_partition Demo.pusher)))) in Hpush.
  destruct (Consumer_IsPullMode Demo.pusher);
    [discriminate Hpush | reflexivity].
Defined.

(** A durable build on a fresh connection: the creation request is accepted
    and the handle comes from the describe request that follows it. *)
Lemma accepted_build_reloads_durable_witness :
  let opts := [DurableName "worker"; AckWait 5] in
  let cfg := set_AckWait 5 (set_Durable "worker" DefaultConsumer) in
  let w1 := mkWorld ["ORDERS worker"]
              [CallRequest "$JS.OBSERVABLE.CREATE" "ORDERS worker"
                 (5 * Second)] in
  NewConsumerConfiguration (frozen 100) DefaultConsumer opts = (cfg, None) /\
  json_Marshal (mkCreateObservableRequest "ORDERS" cfg) =
    ("ORDERS worker", None) /\
  Request JetStreamCreateObservable "ORDERS worker" Timeout Demo.fresh =
    (inl (Demo.reply "+OK"), w1) /\
  HasPrefix (Data (Demo.reply "+OK")) server_OK = true /\
  Durable cfg <> "" /\
  NewConsumerFromTemplate (frozen 100) "ORDERS" DefaultConsumer opts
    Demo.fresh = LoadConsumer "ORDERS" "worker" w1.
Proof.
  cbv zeta.
  assert (H1 : NewConsumerConfiguration (frozen 100) DefaultConsumer
                 [DurableName "worker"; AckWait 5] =
               (set_AckWait 5 (set_Durable "worker" DefaultConsumer), None))
    by reflexivity.
  assert (H2 : json_Marshal
                 (mkCreateObservableRequest "ORDERS"
                    (set_AckWait 5 (set_Durable "worker" DefaultConsumer))) =
               ("ORDERS worker", None)) by reflexivity.
  assert (H3 : Request JetStreamCreateObservable "ORDERS worker" Timeout
                 Demo.fresh =
               (inl (Demo.reply "+OK"),
                mkWorld ["ORDERS worker"]
                  [CallRequest "$JS.OBSERVABLE.CREATE" "ORDERS worker"
                     (5 * Second)])) by reflexivity.
  assert (H4 : HasPrefix (Data (Demo.reply "+OK")) server_OK = true)
    by reflexivity.
  assert (H5 : Durable (set_AckWait 5 (set_Durable "worker" DefaultConsumer))
               <> "") by discriminate.
  repeat (split; [assumption |]).
  exact (proj1 (proj1 (accepted_build_reloads_durable (frozen 100) "ORDERS"
                         DefaultConsumer _ _ _ _ Demo.fresh _ H1 H2 H3 H4)
                      H5)).
Defined.

(** Loading a consumer the server does not know fails, and the fallback is
    the build in the world after the failed describe request. *)
Lemma load_or_build_falls_back_witness :
  let w1 := mkWorld []
              [CallRequest "$JS.OBSERVABLE.INFO" "ORDERS worker"
                 (5 * Second)] in
  let e := Errorf "-ERR consumer not found" in
  LoadConsumer "ORDERS" "worker" Demo.fresh = ((None, Some e), w1) /\
  LoadOrNewConsumerFromTemplate (frozen 100) "ORDERS" "worker"
    SampledDefaultConsumer [DurableName "worker"] Demo.fresh =
  NewConsumerFromTemplate (frozen 100) "ORDERS" SampledDefaultConsumer
    [DurableName "worker"] w1.
Proof.
  cbv zeta.
  assert (H : LoadConsumer "ORDERS" "worker" Demo.fresh =
              ((None, Some (Errorf "-ERR consumer not found")),
               mkWorld []
                 [CallRequest "$JS.OBSERVABLE.INFO" "ORDERS worker"
                    (5 * Second)])) by reflexivity.
  split; [exact H |].
  exact (proj1 (proj2 (proj2 (load_or_build_falls_back (frozen 100) "ORDERS"
                                "worker" SampledDefaultConsumer
                                [DurableName "worker"] Demo.fresh))) _ _ H).
Defined.

Lemma wrong_mode_fails_locally_witness :
  Consumer_IsPullMode Demo.puller = true /\
  Consumer_SubscribeSync Demo.puller Demo.fresh =
    ((None, Some (Errorf "consumer ORDERS > worker is not push-based")),
     Demo.fresh) /\
  Consumer_IsPushMode Demo.pusher = true /\
  Consumer_NextMsgs Demo.pusher 3 Demo.fresh =
    ((None, Some (Errorf "consumer ORDERS > mailer is not pull-based")),
     Demo.fresh).
Proof.
  assert (H1 : Consumer_IsPullMode Demo.puller = true) by reflexivity.
  assert (H2 : Consumer_IsPushMode Demo.pusher = true) by reflexivity.
  split; [exact H1 | split; [| split; [exact H2 |]]].
  - exact (proj1 (proj2 (proj2 (proj2
             (proj1 (wrong_mode_fails_locally Demo.puller Demo.fresh) H1))))).
  - exact (proj1 (proj2 (wrong_mode_fails_locally Demo.pusher Demo.fresh))
             H2 3).
Defined.

(** Resetting a handle on a consumer the server does not know. *)
Lemma failed_reset_keeps_handle_witness :
  let w1 := mkWorld []
              [CallRequest "$JS.OBSERVABLE.INFO" "ORDERS worker"
                 (5 * Second)] in
  let response := Demo.reply "-ERR consumer not found" in
  Request JetStreamObservableInfo
    (stream Demo.puller ++ " " ++ name Demo.puller) Timeout Demo.fresh =
    (inl response, w1) /\
  IsErrorResponse response = true /\
  Consumer_Reset Demo.puller Demo.fresh =
    ((Demo.puller, Some (Errorf "-ERR consumer not found")), w1).
Proof.
  cbv zeta.
  assert (H1 : Request JetStreamObservableInfo
                 (stream Demo.puller ++ " " ++ name Demo.puller) Timeout
                 Demo.fresh =
               (inl (Demo.reply "-ERR consumer not found"),
                mkWorld []
                  [CallRequest "$JS.OBSERVABLE.INFO" "ORDERS worker"
                     (5 * Second)])) by reflexivity.
  assert (H2 : IsErrorResponse (Demo.reply "-ERR consumer not found") = true)
    by reflexivity.
  split; [exact H1 | split; [exact H2 |]].
  exact (proj1 (proj2 (failed_reset_keeps_handle Demo.puller Demo.fresh))
           _ _ H1 H2).
Defined.

End Instances.

(** * Further properties of the option loop *)

Section LoopLaws.
Context {GT : GoTime}.

Lemma loop_frame :
  forall (opts : list ConsumerOption) (clock : nat -> Time)
         (template : ObservableConfig) (g : Field),
    Forall (fun o => exists f, writes o f /\ f <> g) opts ->
    agree g (fst (NewConsumerConfiguration clock template opts)) template.
Proof.
  induction opts as [| o rest IH]; intros clock template g H.
  - apply agree_refl.
  - inversion H as [| ? ? (f & Hw & Hf) Hrest]; subst; cbn.
    assert (Hstep := option_frame o f g (clock 0%nat) template Hw
                       (fun E => Hf (eq_sym E))).
    destruct (o (clock 0%nat) template) as [t' [err |]]; cbn in Hstep |- *.
    + exact Hstep.
    + exact (agree_trans g _ t' _ (IH _ t' g Hrest) Hstep).
Qed.

(** After a prefix that succeeds, the loop's descriptor is the one the next
    option leaves. *)
Lemma loop_last :
  forall (pre : list ConsumerOption) (o : ConsumerOption)
         (clock : nat -> Time) (template c : ObservableConfig),
    NewConsumerConfiguration clock template pre = (c, None) ->
    NewConsumerConfiguration clock template (pre ++ [o]) =
    o (clock (List.length pre)) c.
Proof.
  intros pre o clock template c Hpre.
  rewrite (NewConsumerConfiguration_app pre [o] clock template c Hpre).
  cbn; rewrite Nat.add_0_r.
  destruct (o (clock (List.length pre)) c) as [c' [err |]]; reflexivity.
Qed.


(** X2. Running the loop on a concatenation is running it on the first list
    and, if that succeeded, on the second list from the descriptor reached
    and at the instants that follow; if the first list failed, the second is
    never run. *)
Theorem loop_of_concatenation :
  forall (xs ys : list ConsumerOption) (clock : nat -> Time)
         (template : ObservableConfig),
    NewConsumerConfiguration clock template (xs ++ ys) =
    match NewConsumerConfiguration clock template xs with
    | (c, None) =>
        NewConsumerConfiguration (fun k => clock (List.length xs + k)%nat) c ys
    | (c, Some e) => (c, Some e)
    end.
Proof.
  induction xs as [| o xs IH]; intros ys clock template.
  - reflexivity.
  - cbn. destruct (o (clock 0%nat) template) as [t' [err |]];
      [reflexivity | apply IH].
Qed.

(** X3. A field that no option of the list assigns holds, after the loop,
    the value it has in the template; this is so on success and on failure
    alike. *)
Theorem unassigned_field_keeps_template_value :
  forall (opts : list ConsumerOption) (clock : nat -> Time)
         (template : ObservableConfig) (g : Field),
    Forall catalog opts ->
    ~ Exists (fun o => writes o g) opts ->
    agree g (fst (NewConsumerConfiguration clock template opts)) template.
Proof.
  intros opts clock template g Hcat Hno.
  apply loop_frame.
  rewrite Forall_forall in Hcat |- *.
  intros o Hin; destruct (Hcat o Hin) as [f Hw].
  exists f; split; [exact Hw |].
  intros ->; apply Hno; apply Exists_exists; exists o; auto.
Qed.

End LoopLaws.

Section OptionLaws.
Context {GT : GoTime}.

(** Int64 negation wraps only at the least value. *)
Lemma wrap64_neg :
  forall d : Z, - 2 ^ 63 < d < 2 ^ 63 -> wrap64 (-1 * d) = - d.
Proof.
  intros d Hd; unfold wrap64.
  change (2 ^ 63) with 9223372036854775808 in *.
  change (2 ^ 64) with 18446744073709551616.
  rewrite Z.mod_small; lia.
Qed.

(** X4. Whatever options ran before it, the value the last option of a
    successful list assigns is the value the accessor of that field returns
    on a handle that holds the resulting descriptor: each option is read
    back by its accessor. *)
Theorem last_option_is_read_back :
  forall (pre : list ConsumerOption) (clock : nat -> Time)
         (template c : ObservableConfig) (nm st : string),
    NewConsumerConfiguration clock template pre = (c, None) ->
    let after o :=
      mkConsumer nm st
        (fst (NewConsumerConfiguration clock template (pre ++ [o]))) in
    (forall s, Consumer_DeliverySubject (after (DeliverySubject s)) = s) /\
    (forall s, Consumer_DurableName (after (DurableName s)) = s) /\
    (forall n, Consumer_StreamSequence (after (StartAtSequence n)) = n) /\
    (forall t, Consumer_StartTime (after (StartAtTime t)) = t) /\
    (forall d,
       Consumer_StartTime (after (StartAtTimeDelta d)) =
       time_Add (clock (List.length pre)) (wrap64 (-1 * d))) /\
    Consumer_DeliverAll (after DeliverAllAvailable) = true /\
    Consumer_DeliverLast (after StartWithLastReceived) = true /\
    Consumer_AckPolicy (after AcknowledgeNone) = AckNone /\
    Consumer_AckPolicy (after AcknowledgeAll) = AckAll /\
    Consumer_AckPolicy (after AcknowledgeExplicit) = AckExplicit /\
    (forall t, Consumer_AckWait (after (AckWait t)) = t) /\
    (forall n, n <> 0 ->
       Consumer_MaxDeliver (after (MaxDeliveryAttempts n)) = n) /\
    (forall s, Consumer_FilterSubject (after (FilterStreamBySubject s)) = s) /\
    Consumer_ReplayPolicy (after ReplayInstantly) = ReplayInstant /\
    Consumer_ReplayPolicy (after ReplayAsReceived) = ReplayOriginal /\
    Consumer_SampleFrequency (after (SamplePercent 0)) = "" /\
    (forall i, 1 <= i <= 100 ->
       Consumer_SampleFrequency (after (SamplePercent i)) = Itoa i ++ "%").
Proof.
  intros pre clock template c nm st Hpre; cbv zeta.
  repeat split; intros; rewrite (loop_last pre _ clock template c Hpre);
    try reflexivity.
  - unfold MaxDeliveryAttempts.
    destruct (Z.eqb_spec n 0); [contradiction | reflexivity].
  - unfold SamplePercent.
    destruct (Z.ltb_spec i 0); [lia |].
    destruct (Z.gtb_spec i 100); [lia |].
    destruct (Z.eqb_spec i 0); [lia | reflexivity].
Qed.

(** X5. Giving an option of the catalog twice in a row is giving it once at
    the instant of the second application: the loop returns the same
    descriptor and the same error.  (For an option that reads the clock the
    instant matters: the first application's start time is overwritten by
    the second's.)  When both applications read the same instant this is
    plain idempotence. *)
Theorem repeated_option_is_idempotent :
  forall (o : ConsumerOption) (clock : nat -> Time) (c : ObservableConfig),
    catalog o ->
    NewConsumerConfiguration clock c [o; o] =
      NewConsumerConfiguration (fun k => clock (S k)) c [o] /\
    (clock 1%nat = clock 0%nat ->
     NewConsumerConfiguration clock c [o; o] =
       NewConsumerConfiguration clock c [o]).
Proof.
  intros o clock c Hcat.
  assert (Hshift : NewConsumerConfiguration clock c [o; o] =
                   NewConsumerConfiguration (fun k => clock (S k)) c [o]).
  { destruct (catalog_option_decides_early o Hcat) as [Hok | [e Hko]].
    - destruct Hcat as [f Hw].
      apply (same_field_later_decides o o f clock c Hw Hw).
      cbn. assert (H1 := Hok (clock 0%nat) c).
      destruct (o (clock 0%nat) c) as [c1 [err |]]; [discriminate |].
      assert (H2 := Hok (clock 1%nat) c1).
      destruct (o (clock 1%nat) c1) as [c2 [err |]];
        [discriminate | reflexivity].
    - cbn; rewrite !Hko; reflexivity. }
  split; [exact Hshift |].
  intros Hclk; rewrite Hshift; cbn; rewrite Hclk; reflexivity.
Qed.

(** X6. The sampled default template is the default template after
    [SamplePercent 100]: the loop that starts from the default template with
    that option first returns what the loop returns from the sampled default
    template with the remaining options. *)
Theorem sampled_default_is_default_sampled_fully :
  forall (clock : nat -> Time) (opts : list ConsumerOption),
    fst (SamplePercent 100 (clock 0%nat) DefaultConsumer) =
      SampledDefaultConsumer /\
    NewConsumerConfiguration clock DefaultConsumer (SamplePercent 100 :: opts)
    = NewConsumerConfiguration (fun k => clock (S k)) SampledDefaultConsumer
        opts.
Proof.
  intros clock opts; split; reflexivity.
Qed.

(** X7. [StartAtTimeDelta d] never fails and moves the start time to the
    instant at which it runs plus the int64 product [-1 * d]: that is [d]
    before that instant for every duration but the least one, whose
    negation wraps around to itself. *)
Theorem StartAtTimeDelta_subtracts :
  forall (d : Duration) (now : Time) (c : ObservableConfig),
    (- 2 ^ 63 < d < 2 ^ 63 ->
       StartAtTimeDelta d now c =
       (set_StartTime (time_Add now (- d)) c, None)) /\
    StartAtTimeDelta (- 2 ^ 63) now c =
      (set_StartTime (time_Add now (- 2 ^ 63)) c, None).
Proof.
  intros d now c; split.
  - intros Hd; unfold StartAtTimeDelta; rewrite (wrap64_neg d Hd).
    reflexivity.
  - reflexivity.
Qed.

End OptionLaws.

(** * Further properties of the builder and the loader *)

Section BuildLaws.
Context {GT : GoTime} {SV : Server} {JS : Json} {NC : Nats} {PK : Package}.

(** X8. A build never returns a handle together with an error, and it makes
    no request, or the one creation request carrying the serialised final
    descriptor, or that request followed by the describe request for the
    descriptor's durable name; nothing else.  With no request made the build
    has failed, and a handle is only ever returned after both requests. *)
Theorem build_request_discipline :
  forall (clock : nat -> Time) (stream : string)
         (template : ObservableConfig) (opts : list ConsumerOption)
         (w : World),
    let r := NewConsumerFromTemplate clock stream template opts w in
    (fst (fst r) = None \/ snd (fst r) = None) /\
    exists l,
      calls (snd r) = (calls w ++ l)%list /\
      ((l = [] /\ fst (fst r) = None /\ snd (fst r) <> None) \/
       exists cfg jreq,
         NewConsumerConfiguration clock template opts = (cfg, None) /\
         json_Marshal (mkCreateObservableRequest stream cfg) = (jreq, None) /\
         ((l = [CallRequest JetStreamCreateObservable jreq Timeout] /\
           fst (fst r) = None) \/
          (Durable cfg <> "" /\
           l = [CallRequest JetStreamCreateObservable jreq Timeout;
                CallRequest JetStreamObservableInfo
                  (stream ++ " " ++ Durable cfg) Timeout]))).
Proof.
  intros clock stream0 template opts w; cbv zeta.
  unfold NewConsumerFromTemplate.
  destruct (NewConsumerConfiguration clock template opts) as [cfg0 [e |]].
  { split; [left; reflexivity |].
    exists []; rewrite app_nil_r; split; [reflexivity |].
    left; repeat split; discriminate. }
  destruct (json_Marshal (mkCreateObservableRequest stream0 cfg0))
    as [jreq [e |]] eqn:Ejson.
  { split; [left; reflexivity |].
    exists []; rewrite app_nil_r; split; [reflexivity |].
    left; repeat split; discriminate. }
  destruct (Request JetStreamCreateObservable jreq Timeout w)
    as [[response | err] w1] eqn:Ereq;
    assert (Hlog := Request_logged _ _ _ _ _ _ Ereq).
  2: { split; [left; reflexivity |].
       eexists; split; [exact Hlog |].
       right; exists cfg0, jreq; auto. }
  destruct (HasPrefix (Data response) server_OK); cbn [negb].
  2: { split; [left; reflexivity |].
       eexists; split; [exact Hlog |].
       right; exists cfg0, jreq; auto. }
  destruct (String.eqb_spec (Durable cfg0) "") as [Ed | Ed]; cbn [negb].
  { split; [left; reflexivity |].
    eexists; split; [exact Hlog |].
    right; exists cfg0, jreq; auto. }
  destruct (LoadConsumer_shape stream0 (Durable cfg0) w1)
    as (w2 & Hlog2 & [[c Hc] | [e He]]);
    [rewrite Hc | rewrite He]; cbn [fst snd];
    (split; [auto |]);
    (eexists; split;
     [rewrite Hlog2, Hlog, <- app_assoc; reflexivity |
      right; exists cfg0, jreq; auto]).
Qed.

(** X9. Once the options have succeeded, a build fails in three ways before
    any describe request: a descriptor that does not serialise gives the
    codec's error with no request made; a creation request that errors on
    the connection gives that error; and an answer that does not start with
    the OK marker gives an error holding the answer's text, also when the
    descriptor is durable. *)
Theorem build_failures_after_options :
  forall (clock : nat -> Time) (stream : string)
         (template cfg : ObservableConfig) (opts : list ConsumerOption)
         (w : World),
    NewConsumerConfiguration clock template opts = (cfg, None) ->
    let build := NewConsumerFromTemplate clock stream template opts w in
    let marshalled := json_Marshal (mkCreateObservableRequest stream cfg) in
    (forall jreq err,
       marshalled = (jreq, Some err) -> build = ((None, Some err), w)) /\
    (forall jreq err w1,
       marshalled = (jreq, None) ->
       Request JetStreamCreateObservable jreq Timeout w = (inr err, w1) ->
       build = ((None, Some err), w1)) /\
    (forall jreq response w1,
       marshalled = (jreq, None) ->
       Request JetStreamCreateObservable jreq Timeout w =
         (inl response, w1) ->
       HasPrefix (Data response) server_OK = false ->
       build = ((None, Some (Errorf (Data response))), w1)).
Proof.
  intros clock stream0 template cfg0 opts w Hcfg; cbv zeta.
  unfold NewConsumerFromTemplate; rewrite Hcfg.
  split; [| split].
  - intros jreq err ->; reflexivity.
  - intros jreq err w1 -> ->; reflexivity.
  - intros jreq response w1 -> -> ->; reflexivity.
Qed.

(** What every handle out of [LoadConsumer] has: no error beside it, and the
    stream and the name it was asked with. *)
Lemma loaded_handle_fields :
  forall (stream name : string) (w w1 : World) (c : Consumer)
         (err : option error),
    LoadConsumer stream name w = ((Some c, err), w1) ->
    err = None /\ Consumer_StreamName c = stream /\ Consumer_Name c = name.
Proof.
  intros stream0 name0 w w1 c err.
  unfold LoadConsumer, loadConfigForConsumer; cbn [stream name].
  destruct (loadConsumerInfo stream0 name0 w) as [[info [e |]] w2];
    [discriminate |].
  intros H; injection H as <- <- <-; repeat split.
Qed.

(** X10. A handle returned by [LoadConsumer] carries the stream and the name
    that were asked for, and its descriptor is the one decoded from the
    answer to the describe request, an answer that was not an error
    response. *)
Theorem loaded_handle_is_server_view :
  forall (stream name : string) (w w1 : World) (c : Consumer)
         (err : option error),
    LoadConsumer stream name w = ((Some c, err), w1) ->
    err = None /\
    Consumer_StreamName c = stream /\
    Consumer_Name c = name /\
    exists response info,
      Request JetStreamObservableInfo (stream ++ " " ++ name) Timeout w =
        (inl response, w1) /\
      IsErrorResponse response = false /\
      json_Unmarshal (Data response) zeroInfo = (info, None) /\
      Consumer_Configuration c = info_Config info.
Proof.
  intros stream0 name0 w w1 c err.
  unfold LoadConsumer, loadConfigForConsumer, loadConsumerInfo.
  cbn [stream name].
  destruct (Request JetStreamObservableInfo (stream0 ++ " " ++ name0)
              Timeout w) as [[response | e] w2]; [| discriminate].
  destruct (IsErrorResponse response) eqn:Eerr; [discriminate |].
  destruct (json_Unmarshal (Data response) zeroInfo) as [info [e |]]
    eqn:Ejson; [discriminate |].
  intros H; injection H as <- <- <-.
  repeat split; exists response, info; auto.
Qed.

(** X11. [Reset] is a fresh load of the handle's own stream and name: it
    succeeds exactly when [LoadConsumer] would, with the handle that load
    returns, and fails exactly when the load fails, with the same error and
    the handle untouched; both leave the same world. *)
Theorem Reset_is_a_fresh_load :
  forall (c : Consumer) (w w1 : World),
    (forall c',
       Consumer_Reset c w = ((c', None), w1) <->
       LoadConsumer (stream c) (name c) w = ((Some c', None), w1)) /\
    (forall e,
       Consumer_Reset c w = ((c, Some e), w1) <->
       LoadConsumer (stream c) (name c) w = ((None, Some e), w1)).
Proof.
  intros c w w1.
  unfold Consumer_Reset, LoadConsumer, loadConfigForConsumer.
  cbn [stream name].
  destruct (loadConsumerInfo (stream c) (name c) w) as [[info [e |]] w2];
    unfold set_cfg; cbn [stream name];
    split; intros x; split; intros H;
    try discriminate H; injection H as <- <-; reflexivity.
Qed.

(** X12. [State] makes the one describe request [Reset] makes and fails in
    the same cases with the same error, leaving the same world; on failure
    it returns the zero state, on success the state half of the decoded
    answer. *)
Theorem State_mirrors_Reset :
  forall (c : Consumer) (w : World),
    snd (fst (Consumer_State c w)) = snd (fst (Consumer_Reset c w)) /\
    snd (Consumer_State c w) = snd (Consumer_Reset c w) /\
    calls (snd (Consumer_State c w)) =
      (calls w ++ [CallRequest JetStreamObservableInfo
                     (stream c ++ " " ++ name c) Timeout])%list /\
    (snd (fst (Consumer_State c w)) <> None ->
       fst (fst (Consumer_State c w)) = zeroState) /\
    (snd (fst (Consumer_State c w)) = None ->
       exists response info,
         fst (Request JetStreamObservableInfo (stream c ++ " " ++ name c)
                Timeout w) = inl response /\
         IsErrorResponse response = false /\
         json_Unmarshal (Data response) zeroInfo = (info, None) /\
         fst (fst (Consumer_State c w)) = info_State info).
Proof.
  intros c w.
  unfold Consumer_State, Consumer_Reset, loadConfigForConsumer.
  assert (Hlog := loadConsumerInfo_logged (stream c) (name c) w).
  unfold loadConsumerInfo in *.
  destruct (Request JetStreamObservableInfo (stream c ++ " " ++ name c)
              Timeout w) as [[response | err] w2];
    [destruct (IsErrorResponse response) eqn:Eerr;
       [| destruct (json_Unmarshal (Data response) zeroInfo)
            as [info [e |]] eqn:Ejson] |];
    cbn [fst snd];
    (split; [reflexivity | split; [reflexivity | split;
       [eapply Hlog; reflexivity | split]]]);
    intros H; try reflexivity; try discriminate H;
    try (contradiction H; reflexivity).
  exists response, info; auto.
Qed.

End BuildLaws.

Section FallbackLaws.
Context {GT : GoTime} {SV : Server} {JS : Json} {NC : Nats} {PK : Package}.

(** X13. A handle returned by [LoadOrNewConsumerFromTemplate] comes without
    error and is on the stream asked for; its name is the name asked for, or
    else the load failed and it is the durable name the options produced,
    which need not be the name asked for. *)
Theorem load_or_build_handle_name :
  forall (clock : nat -> Time) (stream name : string)
         (template : ObservableConfig) (opts : list ConsumerOption)
         (w w' : World) (c : Consumer) (err : option error),
    LoadOrNewConsumerFromTemplate clock stream name template opts w =
      ((Some c, err), w') ->
    err = None /\
    Consumer_StreamName c = stream /\
    (Consumer_Name c = name \/
     exists e cfg,
       fst (LoadConsumer stream name w) = (None, Some e) /\
       NewConsumerConfiguration clock template opts = (cfg, None) /\
       Durable cfg <> "" /\
       Consumer_Name c = Durable cfg).
Proof.
  intros clock stream0 name0 template opts w w' c err.
  unfold LoadOrNewConsumerFromTemplate.
  destruct (LoadConsumer_shape stream0 name0 w)
    as (w1 & _ & [[c1 Hc1] | [e He]]).
  - rewrite Hc1; cbn. intros H; injection H as <- <- <-.
    destruct (loaded_handle_fields stream0 name0 w w1 c1 None Hc1)
      as (_ & Hs & Hn).
    auto.
  - rewrite He; cbn. unfold NewConsumerFromTemplate.
    destruct (NewConsumerConfiguration clock template opts)
      as [cfg0 [e0 |]]; [discriminate |].
    destruct (json_Marshal (mkCreateObservableRequest stream0 cfg0))
      as [jreq [e1 |]]; [discriminate |].
    destruct (Request JetStreamCreateObservable jreq Timeout w1)
      as [[response | e2] w2]; [| discriminate].
    destruct (HasPrefix (Data response) server_OK); cbn [negb];
      [| discriminate].
    destruct (String.eqb_spec (Durable cfg0) "") as [Ed | Ed]; cbn [negb];
      [discriminate |].
    intros H.
    destruct (loaded_handle_fields stream0 (Durable cfg0) w2 w' c err H)
      as (He' & Hs & Hn).
    repeat split; auto.
    right; exists e, cfg0; auto.
Qed.

(** X14. A build from a template without durable name, with options of the
    catalog none of which is [DurableName], never returns a handle and never
    makes a describe request: at most the creation request is made.  This is
    the case of [NewConsumer] without a [DurableName] option. *)
Theorem build_without_durable_name :
  forall (clock : nat -> Time) (stream : string)
         (template : ObservableConfig) (opts : list ConsumerOption)
         (w : World),
    Durable template = "" ->
    Forall catalog opts ->
    ~ Exists (fun o => writes o FDurable) opts ->
    let r := NewConsumerFromTemplate clock stream template opts w in
    fst (fst r) = None /\
    (calls (snd r) = calls w \/
     exists jreq,
       calls (snd r) =
       (calls w ++ [CallRequest JetStreamCreateObservable jreq Timeout])%list)
    /\
    (template = DefaultConsumer ->
     fst (fst (NewConsumer clock stream opts w)) = None).
Proof.
  intros clock stream0 template opts w Ht Hcat Hno; cbv zeta.
  assert (Hframe : Durable (fst (NewConsumerConfiguration clock template
                                   opts)) = "").
  { rewrite <- Ht.
    apply (loop_frame opts clock template FDurable).
    rewrite Forall_forall in Hcat |- *.
    intros o Hin; destruct (Hcat o Hin) as [f Hw].
    exists f; split; [exact Hw |].
    intros ->; apply Hno; apply Exists_exists; exists o; auto. }
  assert (Hmain :
            fst (fst (NewConsumerFromTemplate clock stream0 template opts w))
            = None /\
            (calls (snd (NewConsumerFromTemplate clock stream0 template opts
                           w)) = calls w \/
             exists jreq,
               calls (snd (NewConsumerFromTemplate clock stream0 template
                             opts w)) =
               (calls w ++
                [CallRequest JetStreamCreateObservable jreq Timeout])%list)).
  { unfold NewConsumerFromTemplate.
    destruct (NewConsumerConfiguration clock template opts)
      as [cfg0 [e |]]; cbn [fst] in Hframe; [auto |].
    destruct (json_Marshal (mkCreateObservableRequest stream0 cfg0))
      as [jreq [e |]]; [auto |].
    destruct (Request JetStreamCreateObservable jreq Timeout w)
      as [[response | err] w1] eqn:Ereq;
      assert (Hlog := Request_logged _ _ _ _ _ _ Ereq);
      [| split; [reflexivity | right; exists jreq; exact Hlog]].
    destruct (HasPrefix (Data response) server_OK); cbn [negb];
      [| split; [reflexivity | right; exists jreq; exact Hlog]].
    rewrite Hframe; cbn.
    split; [reflexivity | right; exists jreq; exact Hlog]. }
  destruct Hmain as [H1 H2]; split; [exact H1 | split; [exact H2 |]].
  intros ->; exact H1.
Qed.

End FallbackLaws.

(** * Further properties of the handle *)

Lemma string_append_assoc :
  forall a b c : string, (a ++ b) ++ c = a ++ b ++ c.
Proof.
  induction a as [| ch a IH]; intros b c; cbn; [| rewrite IH]; reflexivity.
Qed.

Section DeleteLaws.
Context {GT : GoTime} {NC : Nats} {PK : Package} {DL : Deletion}.

(** X15. [Delete] makes exactly one request, on the delete subject, keyed by
    stream and name, whatever the mode of the handle.  It returns nil if and
    only if the exchange answered with a response that is not an error
    response and is an OK response.  An error response gives an error with
    the response's text even if the response also passes the OK test, and a
    response that is neither gives the "unknown response" error naming the
    consumer and quoting the payload. *)
Theorem Delete_outcomes :
  forall (c : Consumer) (w : World),
    let exchange :=
      Request JetStreamDeleteObservable (stream c ++ " " ++ name c) Timeout w
    in
    calls (snd (Consumer_Delete c w)) =
      (calls w ++ [CallRequest JetStreamDeleteObservable
                     (stream c ++ " " ++ name c) Timeout])%list /\
    snd (Consumer_Delete c w) = snd exchange /\
    (fst (Consumer_Delete c w) = None <->
     exists response,
       fst exchange = inl response /\
       IsErrorResponse response = false /\
       IsOKResponse response = true) /\
    (forall err,
       fst exchange = inr err -> fst (Consumer_Delete c w) = Some err) /\
    (forall response,
       fst exchange = inl response ->
       IsErrorResponse response = true ->
       fst (Consumer_Delete c w) = Some (Errorf (Data response))) /\
    (forall response,
       fst exchange = inl response ->
       IsErrorResponse response = false ->
       IsOKResponse response = false ->
       fst (Consumer_Delete c w) =
       Some (Errorf ("unknown response while removing consumer " ++ name c
                     ++ ": " ++ fmt_q (Data response)))).
Proof.
  intros c w; cbv zeta.
  unfold Consumer_Delete, Consumer_StreamName, Consumer_Name.
  destruct (Request JetStreamDeleteObservable (stream c ++ " " ++ name c)
              Timeout w) as [[response | err] w1] eqn:Ereq;
    assert (Hlog := Request_logged _ _ _ _ _ _ Ereq); cbn [fst snd].
  - destruct (IsErrorResponse response) eqn:Eerr;
      [| destruct (IsOKResponse response) eqn:Eok]; cbn [fst snd];
      (split; [exact Hlog | split; [reflexivity | split; [split |]]]).
    + discriminate.
    + intros (r & Hr & He & _); injection Hr as <-; congruence.
    + repeat split; intros; congruence.
    + intros _; exists response; auto.
    + reflexivity.
    + repeat split; intros; congruence.
    + discriminate.
    + intros (r & Hr & _ & Ho); injection Hr as <-; congruence.
    + repeat split; intros; congruence.
  - split; [exact Hlog | split; [reflexivity | split; [split |]]].
    + discriminate.
    + intros (r & Hr & _); discriminate.
    + repeat split; intros; congruence.
Qed.

End DeleteLaws.

Section TrafficLaws.
Context {GT : GoTime} {SV : Server} {NC : Nats} {PK : Package}.

(** X16. On a handle in push-mode every subscribe method makes exactly one
    call on the connection, the method of the same name on the handle's
    delivery subject (a non-empty subject) with the arguments it was given,
    and returns what the connection answers. *)
Theorem push_subscribe_delegates :
  forall (c : Consumer) (w : World),
    Consumer_IsPushMode c = true ->
    let d := Consumer_DeliverySubject c in
    d <> "" /\
    (forall h,
       Consumer_Subscribe c h w = delegate (Subscribe d h) w /\
       calls (snd (Consumer_Subscribe c h w)) =
         (calls w ++ [CallSubscribe d h])%list) /\
    (forall ch,
       Consumer_ChanSubscribe c ch w = delegate (ChanSubscribe d ch) w /\
       calls (snd (Consumer_ChanSubscribe c ch w)) =
         (calls w ++ [CallChanSubscribe d ch])%list) /\
    (forall g ch,
       Consumer_ChanQueueSubscribe c g ch w =
         delegate (ChanQueueSubscribe d g ch) w /\
       calls (snd (Consumer_ChanQueueSubscribe c g ch w)) =
         (calls w ++ [CallChanQueueSubscribe d g ch])%list) /\
    (Consumer_SubscribeSync c w = delegate (SubscribeSync d) w /\
     calls (snd (Consumer_SubscribeSync c w)) =
       (calls w ++ [CallSubscribeSync d])%list) /\
    (forall q h,
       Consumer_QueueSubscribe c q h w = delegate (QueueSubscribe d q h) w /\
       calls (snd (Consumer_QueueSubscribe c q h w)) =
         (calls w ++ [CallQueueSubscribe d q h])%list) /\
    (forall q,
       Consumer_QueueSubscribeSync c q w =
         delegate (QueueSubscribeSync d q) w /\
       calls (snd (Consumer_QueueSubscribeSync c q w)) =
         (calls w ++ [CallQueueSubscribeSync d q])%list) /\
    (forall q ch,
       Consumer_QueueSubscribeSyncWithChan c q ch w =
         delegate (QueueSubscribeSyncWithChan d q ch) w /\
       calls (snd (Consumer_QueueSubscribeSyncWithChan c q ch w)) =
         (calls w ++ [CallQueueSubscribeSyncWithChan d q ch])%list).
Proof.
  intros c w Hpush; cbv zeta.
  split.
  { unfold Consumer_IsPushMode, Consumer_IsPullMode in Hpush.
    unfold Consumer_DeliverySubject.
    apply String.eqb_neq; destruct (String.eqb (Delivery (cfg c)) "");
      [discriminate Hpush | reflexivity]. }
  unfold Consumer_Subscribe, Consumer_ChanSubscribe,
    Consumer_ChanQueueSubscribe, Consumer_SubscribeSync,
    Consumer_QueueSubscribe, Consumer_QueueSubscribeSync,
    Consumer_QueueSubscribeSyncWithChan.
  rewrite Hpush; cbn [negb].
  unfold delegate, Subscribe, ChanSubscribe, ChanQueueSubscribe,
    SubscribeSync, QueueSubscribe, QueueSubscribeSync,
    QueueSubscribeSyncWithChan, perform.
  repeat split; intros;
    match goal with
    | |- context [let (_, _) := (let (_, _) := ?s in _) in _] =>
        destruct s; reflexivity
    end.
Qed.

(** X17. On a handle in pull-mode [NextMsgs n] makes exactly one request: on
    the next-subject built from prefix, stream and name, with the decimal
    text of [n] as payload and the package timeout, and returns what the
    connection answers; a message comes back exactly when no error does. *)
Theorem pull_fetch_request :
  forall (c : Consumer) (n : Z) (w : World),
    Consumer_IsPullMode c = true ->
    let subj := JetStreamRequestNextPre ++ "." ++ stream c ++ "." ++ name c in
    let r := Consumer_NextMsgs c n w in
    r = delegate (Request subj (Itoa n) Timeout) w /\
    calls (snd r) = (calls w ++ [CallRequest subj (Itoa n) Timeout])%list /\
    ((exists m, fst r = (Some m, None)) \/
     (exists e, fst r = (None, Some e))).
Proof.
  intros c n w Hpull; cbv zeta.
  unfold Consumer_NextMsgs, Consumer_NextSubject; rewrite Hpull; cbn [negb].
  unfold delegate.
  destruct (Request (JetStreamRequestNextPre ++ "." ++ stream c ++ "."
                     ++ name c) (Itoa n) Timeout w) as [[m | e] w1] eqn:Ereq;
    assert (Hlog := Request_logged _ _ _ _ _ _ Ereq); cbn [fst snd go_pair];
    (split; [reflexivity | split; [exact Hlog |]]);
    [left | right]; eexists; reflexivity.
Qed.

(** X18. Keys and subjects are plain concatenations, so they do not
    determine the pair of stream and name: moving a dot-separated part from
    the end of the stream name to the front of the consumer name changes
    neither the next-subject nor the sample subject, and moving a
    space-separated part changes nothing of the describe exchange. *)
Theorem subjects_do_not_separate_stream_and_name :
  forall (s t n : string) (d : ObservableConfig) (w : World)
         (JS : Json),
    Consumer_NextSubject (mkConsumer n (s ++ "." ++ t) d) =
      Consumer_NextSubject (mkConsumer (t ++ "." ++ n) s d) /\
    Consumer_SampleSubject (mkConsumer n (s ++ "." ++ t) d) =
      Consumer_SampleSubject (mkConsumer (t ++ "." ++ n) s d) /\
    loadConsumerInfo (s ++ " " ++ t) n w =
      loadConsumerInfo s (t ++ " " ++ n) w.
Proof.
  intros s t n d w JS0.
  unfold Consumer_NextSubject, Consumer_SampleSubject, Consumer_IsPullMode,
    Consumer_SampleFrequency, Consumer_StreamName, loadConsumerInfo.
  cbn [stream name cfg].
  repeat rewrite string_append_assoc.
  repeat split.
Qed.

End TrafficLaws.

Section BuiltHandle.
Context {GT : GoTime} {SV : Server} {JS : Json} {NC : Nats} {PK : Package}.

(** X19. A handle returned by a build comes without error, is on the stream
    asked for, and is named after the non-empty durable name the options
    produced. *)
Theorem built_handle_is_named_after_durable :
  forall (clock : nat -> Time) (stream : string)
         (template : ObservableConfig) (opts : list ConsumerOption)
         (w w' : World) (c : Consumer) (err : option error),
    NewConsumerFromTemplate clock stream template opts w =
      ((Some c, err), w') ->
    err = None /\
    Consumer_StreamName c = stream /\
    exists cfg,
      NewConsumerConfiguration clock template opts = (cfg, None) /\
      Durable cfg <> "" /\
      Consumer_Name c = Durable cfg.
Proof.
  intros clock stream0 template opts w w' c err.
  unfold NewConsumerFromTemplate.
  destruct (NewConsumerConfiguration clock template opts)
    as [cfg0 [e0 |]]; [discriminate |].
  destruct (json_Marshal (mkCreateObservableRequest stream0 cfg0))
    as [jreq [e1 |]]; [discriminate |].
  destruct (Request JetStreamCreateObservable jreq Timeout w)
    as [[response | e2] w2]; [| discriminate].
  destruct (HasPrefix (Data response) server_OK); cbn [negb];
    [| discriminate].
  destruct (String.eqb_spec (Durable cfg0) "") as [Ed | Ed]; cbn [negb];
    [discriminate |].
  intros H.
  destruct (loaded_handle_fields stream0 (Durable cfg0) w2 w' c err H)
    as (He & Hs & Hn).
  repeat split; auto.
  exists cfg0; auto.
Qed.

End BuiltHandle.

(** * More worked instances *)

Section MoreInstances.
#[local] Existing Instance Demo.time.
#[local] Existing Instance Demo.server.
#[local] Existing Instance Demo.json.
#[local] Existing Instance Demo.nats.
#[local] Existing Instance Demo.package.
#[local] Existing Instance Scenario.deletion.

(** An option is not the one that assigns a given field when the two differ
    on the zero descriptor. *)
Ltac refute_writes :=
  match goal with
  | H : writes _ _ |- _ =>
      inversion H;
      match goal with
      | E : ?f = ?g |- _ =>
          let X := fresh in
          assert (X := f_equal (fun o : ConsumerOption =>
                                  fst (o 0 zeroConfig)) E);
          cbv in X; discriminate X
      end
  end.

Ltac refute_exists :=
  let H := fresh in
  intros H;
  repeat match goal with
    | H : Exists _ _ |- _ => inversion H; clear H; subst
    end;
  refute_writes.

Ltac all_catalog := repeat constructor; eexists; constructor.


(** The deliver-all flag of the default template survives options that do
    not name it. *)
Lemma unassigned_field_keeps_template_value_witness :
  let opts := [DurableName "orders-worker"; AcknowledgeExplicit;
               AckWait (10 * Second)] in
  Forall catalog opts /\
  ~ Exists (fun o => writes o FDeliverAll) opts /\
  DeliverAll (fst (NewConsumerConfiguration (frozen 0) DefaultConsumer opts))
  = DeliverAll DefaultConsumer.
Proof.
  cbv zeta.
  assert (H1 : Forall catalog [DurableName "orders-worker";
                               AcknowledgeExplicit; AckWait (10 * Second)])
    by all_catalog.
  assert (H2 : ~ Exists (fun o => writes o FDeliverAll)
                 [DurableName "orders-worker"; AcknowledgeExplicit;
                  AckWait (10 * Second)]) by refute_exists.
  split; [exact H1 | split; [exact H2 |]].
  exact (unassigned_field_keeps_template_value _ (frozen 0) DefaultConsumer
           FDeliverAll H1 H2).
Defined.

Lemma last_option_is_read_back_witness :
  NewConsumerConfiguration (frozen 0) DefaultConsumer
    [DurableName "worker"; StartAtSequence 3] =
    (set_MsgSetSeq 3 (set_Durable "worker" DefaultConsumer), None) /\
  Consumer_StreamSequence
    (mkConsumer "worker" "ORDERS"
       (fst (NewConsumerConfiguration (frozen 0) DefaultConsumer
               ([DurableName "worker"; StartAtSequence 3]
                ++ [StartAtSequence 7])))) = 7.
Proof.
  assert (H : NewConsumerConfiguration (frozen 0) DefaultConsumer
                [DurableName "worker"; StartAtSequence 3] =
              (set_MsgSetSeq 3 (set_Durable "worker" DefaultConsumer), None))
    by reflexivity.
  split; [exact H |].
  exact (proj1 (proj2 (proj2
           (last_option_is_read_back _ (frozen 0) DefaultConsumer _
              "worker" "ORDERS" H))) 7).
Defined.

(** On a clock that ticks, [StartAtTimeDelta 10] given twice leaves the start
    time the second application computes. *)
Lemma repeated_option_is_idempotent_witness :
  let clock := fun k : nat => 100 + Z.of_nat k in
  catalog (StartAtTimeDelta 10) /\
  NewConsumerConfiguration clock DefaultConsumer
    [StartAtTimeDelta 10; StartAtTimeDelta 10] =
  NewConsumerConfiguration (fun k => clock (S k)) DefaultConsumer
    [StartAtTimeDelta 10] /\
  StartTime (fst (NewConsumerConfiguration clock DefaultConsumer
                    [StartAtTimeDelta 10; StartAtTimeDelta 10])) = 91.
Proof.
  cbv zeta.
  assert (H : catalog (StartAtTimeDelta 10)) by (eexists; constructor).
  split; [exact H | split; [| reflexivity]].
  exact (proj1 (repeated_option_is_idempotent (StartAtTimeDelta 10)
                  (fun k : nat => 100 + Z.of_nat k) DefaultConsumer H)).
Defined.

Lemma StartAtTimeDelta_subtracts_witness :
  - 2 ^ 63 < 10 < 2 ^ 63 /\
  StartAtTimeDelta 10 100 DefaultConsumer =
    (set_StartTime 90 DefaultConsumer, None).
Proof.
  assert (H : - 2 ^ 63 < 10 < 2 ^ 63) by (split; reflexivity).
  split; [exact H |].
  exact (proj1 (StartAtTimeDelta_subtracts 10 100 DefaultConsumer) H).
Defined.

(** A creation request that times out on the connection. *)
Lemma build_failures_after_options_witness :
  let w1 := mkWorld []
              [CallRequest "$JS.OBSERVABLE.CREATE" "offline " (5 * Second)] in
  NewConsumerConfiguration (frozen 0) DefaultConsumer [AckWait 5] =
    (set_AckWait 5 DefaultConsumer, None) /\
  json_Marshal
    (mkCreateObservableRequest "offline" (set_AckWait 5 DefaultConsumer)) =
    ("offline ", None) /\
  Request JetStreamCreateObservable "offline " Timeout Demo.fresh =
    (inr (Foreign "nats" "timeout"), w1) /\
  NewConsumerFromTemplate (frozen 0) "offline" DefaultConsumer [AckWait 5]
    Demo.fresh = ((None, Some (Foreign "nats" "timeout")), w1).
Proof.
  cbv zeta.
  assert (H1 : NewConsumerConfiguration (frozen 0) DefaultConsumer
                 [AckWait 5] = (set_AckWait 5 DefaultConsumer, None))
    by reflexivity.
  assert (H2 : json_Marshal
                 (mkCreateObservableRequest "offline"
                    (set_AckWait 5 DefaultConsumer)) = ("offline ", None))
    by reflexivity.
  assert (H3 : Request JetStreamCreateObservable "offline " Timeout
                 Demo.fresh =
               (inr (Foreign "nats" "timeout"),
                mkWorld []
                  [CallRequest "$JS.OBSERVABLE.CREATE" "offline "
                     (5 * Second)])) by reflexivity.
  split; [exact H1 | split; [exact H2 | split; [exact H3 |]]].
  exact (proj1 (proj2 (build_failures_after_options (frozen 0) "offline"
                         DefaultConsumer _ [AckWait 5] Demo.fresh H1))
           _ _ _ H2 H3).
Defined.

Lemma loaded_handle_is_server_view_witness :
  exists c w1,
    LoadConsumer "ORDERS" "worker" Scenario.stocked = ((Some c, None), w1) /\
    Consumer_StreamName c = "ORDERS" /\
    Consumer_Name c = "worker".
Proof.
  eexists; eexists; split; [reflexivity |].
  split;
    [exact (proj1 (proj2 (loaded_handle_is_server_view "ORDERS" "worker"
                            Scenario.stocked _ _ None eq_refl))) |
     exact (proj1 (proj2 (proj2
              (loaded_handle_is_server_view "ORDERS" "worker"
                 Scenario.stocked _ _ None eq_refl))))].
Defined.

Lemma State_mirrors_Reset_witness :
  snd (fst (Consumer_State Demo.puller Demo.fresh)) <> None /\
  fst (fst (Consumer_State Demo.puller Demo.fresh)) = zeroState.
Proof.
  assert (H : snd (fst (Consumer_State Demo.puller Demo.fresh)) <> None)
    by discriminate.
  split; [exact H |].
  exact (proj1 (proj2 (proj2 (proj2
           (State_mirrors_Reset Demo.puller Demo.fresh)))) H).
Defined.

(** Asked for consumer [a], the fallback builds and returns consumer [b]. *)
Lemma load_or_build_handle_name_witness :
  exists c w1,
    LoadOrNewConsumerFromTemplate (frozen 0) "ORDERS" "a" DefaultConsumer
      [DurableName "b"] Demo.fresh = ((Some c, None), w1) /\
    Consumer_StreamName c = "ORDERS" /\
    Consumer_Name c = "b".
Proof.
  eexists; eexists; split; [reflexivity |].
  split;
    [exact (proj1 (proj2 (load_or_build_handle_name (frozen (GT := Demo.time) 0) "ORDERS" "a"
                            DefaultConsumer [DurableName "b"] Demo.fresh
                            _ _ None eq_refl))) |
     reflexivity].
Defined.

Lemma build_without_durable_name_witness :
  Durable DefaultConsumer = "" /\
  Forall catalog [AckWait 5] /\
  ~ Exists (fun o => writes o FDurable) [AckWait 5] /\
  fst (fst (NewConsumerFromTemplate (frozen 0) "ORDERS" DefaultConsumer
              [AckWait 5] Demo.fresh)) = None.
Proof.
  assert (H1 : Durable DefaultConsumer = "") by reflexivity.
  assert (H2 : Forall catalog [AckWait 5]) by all_catalog.
  assert (H3 : ~ Exists (fun o => writes o FDurable) [AckWait 5])
    by refute_exists.
  split; [exact H1 | split; [exact H2 | split; [exact H3 |]]].
  exact (proj1 (build_without_durable_name (frozen (GT := Demo.time) 0) "ORDERS"
                  DefaultConsumer [AckWait 5] Demo.fresh H1 H2 H3)).
Defined.

(** The demo server answers a delete request with an empty payload, which is
    neither marker. *)
Lemma Delete_outcomes_witness :
  fst (Request JetStreamDeleteObservable
         (stream Demo.puller ++ " " ++ name Demo.puller) Timeout Demo.fresh) =
    inl (Demo.reply "") /\
  IsErrorResponse (Demo.reply "") = false /\
  IsOKResponse (Demo.reply "") = false /\
  fst (Consumer_Delete Demo.puller Demo.fresh) =
    Some (Errorf ("unknown response while removing consumer worker: "
                  ++ fmt_q "")).
Proof.
  repeat (split; [reflexivity |]).
  exact (proj2 (proj2 (proj2 (proj2 (proj2
           (Delete_outcomes Demo.puller Demo.fresh)))))
           (Demo.reply "") eq_refl eq_refl eq_refl).
Defined.

Lemma push_subscribe_delegates_witness :
  Consumer_IsPushMode Demo.pusher = true /\
  calls (snd (Consumer_SubscribeSync Demo.pusher Demo.fresh)) =
    [CallSubscribeSync "deliver.mailer"].
Proof.
  assert (H : Consumer_IsPushMode Demo.pusher = true) by reflexivity.
  split; [exact H |].
  exact (proj2 (proj1 (proj2 (proj2 (proj2 (proj2
           (push_subscribe_delegates Demo.pusher Demo.fresh H))))))).
Defined.

Lemma pull_fetch_request_witness :
  Consumer_IsPullMode Demo.puller = true /\
  calls (snd (Consumer_NextMsgs Demo.puller 3 Demo.fresh)) =
    [CallRequest "$JS.RN.ORDERS.worker" "3" (5 * Second)].
Proof.
  assert (H : Consumer_IsPullMode Demo.puller = true) by reflexivity.
  split; [exact H |].
  exact (proj1 (proj2 (pull_fetch_request Demo.puller 3 Demo.fresh H))).
Defined.

Lemma built_handle_is_named_after_durable_witness :
  exists c w1,
    NewConsumerFromTemplate (frozen 0) "ORDERS" DefaultConsumer
      [DurableName "worker"] Demo.fresh = ((Some c, None), w1) /\
    Consumer_StreamName c = "ORDERS".
Proof.
  eexists; eexists; split; [reflexivity |].
  exact (proj1 (proj2 (built_handle_is_named_after_durable (frozen (GT := Demo.time) 0)
                         "ORDERS" DefaultConsumer [DurableName "worker"]
                         Demo.fresh _ _ None eq_refl))).
Defined.

End MoreInstances.
